(** * Code Shield page (src/page.tsx): a shallow embedding of its form
    validation, its three request workflows and its result rendering.

    The page is a tree of React components whose handlers run to
    completion on one event loop.  A component's [useState] cells and
    the values of its form are fields of a record; a handler is a state
    transformer written statement by statement; an [async] handler is
    cut at its [await] into the part that runs at the call and the part
    that runs when the promise settles, and the events of the page are
    free to occur in between.

    Strings are sequences of UTF-16 code units restricted to the range
    0..255 (Basic Latin and Latin-1), one [ascii] per code unit, so that
    [String.length] is the JavaScript [.length] and [toLowerCase] is the
    builtin on that range.  Numbers that the page compares ([.length]
    against the schema bounds) are [Z]. *)

From Stdlib Require Import ZArith Lia Bool Ascii String List.
From stdpp Require Import base list strings.
Import ListNotations.

Local Open Scope string_scope.
Local Open Scope list_scope.
Local Open Scope Z_scope.

(** ** JavaScript string primitives used by the page *)

Module JS.

(** [s.length] *)
Definition length (s : string) : Z := Z.of_nat (String.length s).

(** One code unit of [String.prototype.toLowerCase]: A-Z and the
    Latin-1 capitals U+00C0..U+00DE (without the multiplication sign
    U+00D7) move up by 32; every other unit below 256 is unchanged. *)
Definition lower_unit (c : ascii) : ascii :=
  let n := N_of_ascii c in
  if ((65 <=? n) && (n <=? 90))%N
     || ((192 <=? n) && (n <=? 222) && negb (n =? 215))%N
  then ascii_of_N (n + 32)
  else c.

(** [s.toLowerCase()] *)
Fixpoint toLowerCase (s : string) : string :=
  match s with
  | EmptyString => EmptyString
  | String c s' => String (lower_unit c) (toLowerCase s')
  end.

(** [s.startsWith(sub)], the test [includes] makes at each position *)
Fixpoint startsWith (s sub : string) {struct sub} : bool :=
  match sub, s with
  | EmptyString, _ => true
  | String _ _, EmptyString => false
  | String a sub', String b s' => Ascii.eqb a b && startsWith s' sub'
  end.

(** [s.includes(sub)]: [sub] occurs at some position of [s] *)
Fixpoint includes (s sub : string) : bool :=
  startsWith s sub
  || match s with
     | EmptyString => false
     | String _ s' => includes s' sub
     end.

End JS.

(** ** Severity badge (getBadgeVariant, page.tsx 272-278) *)

Inductive BadgeVariant := destructive | secondary | outline | default.

Definition getBadgeVariant (severity : string) : BadgeVariant :=
  let lowerSeverity := JS.toLowerCase severity in
  if JS.includes lowerSeverity "high" || JS.includes lowerSeverity "critical"
  then destructive
  else if JS.includes lowerSeverity "medium" then secondary
  else if JS.includes lowerSeverity "low" then outline
  else default.

(** The spec's wording of the rule: a keyword matches a severity when
    some contiguous part of the severity equals the keyword up to letter
    case. *)
Definition eq_ignoring_case (a b : string) : Prop :=
  JS.toLowerCase a = JS.toLowerCase b.

Definition contains_ci (severity keyword : string) : Prop :=
  exists pre mid suf,
    severity = pre +:+ mid +:+ suf /\ eq_ignoring_case mid keyword.

(** The severity-to-badge rule in the spec's words: [badge] is the
    style the rule gives [severity], the first match winning. *)
Definition classified_by_rule (severity : string) (badge : BadgeVariant)
  : Prop :=
  let hi := contains_ci severity "high" \/ contains_ci severity "critical" in
  let med := contains_ci severity "medium" in
  let lo := contains_ci severity "low" in
  (hi -> badge = destructive)
  /\ (~ hi -> med -> badge = secondary)
  /\ (~ hi -> ~ med -> lo -> badge = outline)
  /\ (~ hi -> ~ med -> ~ lo -> badge = default).


(** ** Data model *)

(** One finding of [AiPoweredVulnerabilityDetectionOutput] (line 37). *)
Record Vulnerability := {
  description : string;
  severity : string;
  location : string;
  recommendation : string;
  references : option (list string)
}.

(** The scan operation's result, [{ vulnerabilities: [...] }]. *)
Record ScanOutput := { vulnerabilities : list Vulnerability }.

(** [z.infer<typeof formSchema>]: the scan form's values. *)
Record FormValues := { language : string; code : string }.

(** [z.infer<typeof bestPracticesFormSchema>]. *)
Record BestPracticesValues := { bp_language : string }.

(** lines 24-26 *)
Definition supportedLanguages : list string :=
  [ "JavaScript"; "Python"; "Java"; "C++"; "C#"; "TypeScript"; "PHP"; "Ruby";
    "Go"; "Swift"; "Kotlin"; "Rust"; "SQL"; "HTML"; "CSS" ].

(** ** Validation (zod schemas, lines 28-35, behind zodResolver) *)

Inductive Field := field_language | field_code.

Record ZodIssue := { path : Field; message : string }.

Module Zod.

(** The two refinements the schemas put on [z.string()]:
    [.min(n, {message})] fails when [data.length < n],
    [.max(n, {message})] fails when [data.length > n]. *)
Inductive check :=
| min (n : Z) (msg : string)
| max (n : Z) (msg : string).

Definition fails (c : check) (data : string) : bool :=
  match c with
  | min n _ => JS.length data <? n
  | max n _ => JS.length data >? n
  end.

Definition msg_of (c : check) : string :=
  match c with min _ m => m | max _ m => m end.

(** [z.string()] with its checks, parsed at [path]: one issue per failing
    check, in the order the checks were chained. *)
Definition string_at (p : Field) (checks : list check) (data : string)
  : list ZodIssue :=
  List.map (fun c => {| path := p; message := msg_of c |})
           (List.filter (fun c => fails c data) checks).

End Zod.

Definition msg_select_language : string := "Please select a language.".
Definition msg_code_too_short : string :=
  "Please enter at least 20 characters of code.".
Definition msg_code_too_long : string := "Code cannot exceed 8000 characters.".

(** The issues [formSchema] raises on the scan form's values; none means
    the parse succeeds and returns the values. *)
Definition formSchema (values : FormValues) : list ZodIssue :=
  Zod.string_at field_language [Zod.min 1 msg_select_language] (language values)
  ++ Zod.string_at field_code
       [Zod.min 20 msg_code_too_short; Zod.max 8000 msg_code_too_long]
       (code values).

Definition bestPracticesFormSchema (values : BestPracticesValues)
  : list ZodIssue :=
  Zod.string_at field_language [Zod.min 1 msg_select_language]
                (bp_language values).

(** [formState.errors]: the message shown next to each field. *)
Record FieldErrors := {
  err_language : option string;
  err_code : option string
}.

Definition noErrors : FieldErrors :=
  {| err_language := None; err_code := None |}.

Definition is_field (p q : Field) : bool :=
  match p, q with
  | field_language, field_language | field_code, field_code => true
  | _, _ => false
  end.

Definition first_message (p : Field) (issues : list ZodIssue) : option string :=
  message <$> List.find (fun i => is_field p (path i)) issues.

(** zodResolver: the first issue of each field becomes its error. *)
Definition zodResolver (issues : list ZodIssue) : FieldErrors :=
  {| err_language := first_message field_language issues;
     err_code := first_message field_code issues |}.

(** ** Collaborators: the AI gateway, toasts, the console, file readers *)

(** Modelled from the spec: the server actions of ./actions (line 21)
    are not part of page.tsx.  Each is a request/response operation of
    the AI gateway that returns its result or fails; here a call is
    recorded with its argument object, and what it returns is a
    parameter of the event that settles it. *)
Inductive GatewayCall :=
| handleVulnerabilityScan (values : FormValues)
| handleRemediation (codeSnippet vulnerabilityDescription lang : string)
| handleBestPractices (values : BestPracticesValues).

(** What a gateway call does at the call site: it raises before the
    [await] gets a promise, or it returns a promise that settles in a
    later turn of the event loop. *)
Inductive Invocation := Throws | Returns.

Inductive Settled (A : Type) :=
| Fulfilled (result : A)
| Rejected.
Arguments Fulfilled {A} result.
Arguments Rejected {A}.

Inductive ToastVariant := variant_default | variant_destructive.

Record Toast := {
  variant : ToastVariant;
  title : string;
  toast_description : string;
  className : option string
}.

(** A file of the picker's FileList, with the text [readAsText] decodes. *)
Record File := { file_name : string; file_text : string }.

(** ** Component state *)

(** RemediationSection's two [useState] cells (lines 45-46): each
    instance of the component owns a pair of them. *)
Record RemediationState := {
  rem_isLoading : bool;
  suggestion : option string
}.

Definition initialRemediation : RemediationState :=
  {| rem_isLoading := false; suggestion := None |}.

(** CodeShieldPage: the values and errors of its form (react-hook-form),
    its two [useState] cells, and, below the result card, one
    RemediationSection per finding, keyed by index (line 410), with the
    [language] and [code] props the page's latest render gave them
    (lines 442-447).  [formErrors] holds what the resolver reported at
    the latest submission. *)
Record ScanPage := {
  form : FormValues;
  formErrors : FieldErrors;
  scanResult : option ScanOutput;
  isLoading : bool;
  sectionProps : FormValues;
  sections : list RemediationState
}.

(** BestPracticesSection: its form and its two [useState] cells. *)
Record BestPractices := {
  bp_form : BestPracticesValues;
  bp_error : option string;
  bp_isLoading : bool;
  bestPractices : option string
}.

Record World := {
  page : ScanPage;
  best : BestPractices;
  toasts : list Toast;            (* every toast published, oldest first *)
  gateway : list GatewayCall;     (* every gateway call made, oldest first *)
  console : nat;                  (* number of console.error calls *)
  reading : list File             (* FileReaders whose onload is pending *)
}.

Definition initialPage : ScanPage :=
  {| form := {| language := ""; code := "" |};
     formErrors := noErrors;
     scanResult := None;
     isLoading := false;
     sectionProps := {| language := ""; code := "" |};
     sections := [] |}.

Definition initialBest : BestPractices :=
  {| bp_form := {| bp_language := "" |};
     bp_error := None;
     bp_isLoading := false;
     bestPractices := None |}.

Definition initialWorld : World :=
  {| page := initialPage; best := initialBest;
     toasts := []; gateway := []; console := 0%nat; reading := [] |}.

(** ** Actions: state transformers, sequenced as the handlers' statements *)

Definition Action := World -> World.

Definition skip : Action := fun w => w.

Definition seq (a b : Action) : Action := fun w => b (a w).

Notation "a ;; b" := (seq a b) (at level 100, b at level 200, right associativity).

Definition on_page (f : ScanPage -> ScanPage) : Action := fun w =>
  {| page := f (page w); best := best w; toasts := toasts w;
     gateway := gateway w; console := console w; reading := reading w |}.

Definition on_best (f : BestPractices -> BestPractices) : Action := fun w =>
  {| page := page w; best := f (best w); toasts := toasts w;
     gateway := gateway w; console := console w; reading := reading w |}.

(** *** Rendering CodeShieldPage *)

(** The number of accordion items of lines 395-451: none without a
    result or with an empty one, else one per finding. *)
Definition panelCount (r : option ScanOutput) : nat :=
  match r with
  | Some r => if 0 <? Z.of_nat (length (vulnerabilities r))
              then length (vulnerabilities r) else 0%nat
  | None => 0%nat
  end.

(** Modelled from the spec: the Accordion components of
    @/components/ui/accordion are not part of page.tsx.  Each item's
    content is taken to stay mounted while the result is shown, so that
    each finding owns its loading and result state for that time.
    React then keeps the state of a section whose key is rendered
    again, drops the state of sections no longer rendered, and mounts
    new sections with their initial state. *)
Definition reconcile (n : nat) (old : list RemediationState)
  : list RemediationState :=
  take n old ++ replicate (n - length old)%nat initialRemediation.

(** A render of CodeShieldPage: the sections are reconciled against the
    result and receive [form.getValues('language')] and
    [form.getValues('code')] as props. *)
Definition render_page (p : ScanPage) : ScanPage :=
  {| form := form p; formErrors := formErrors p;
     scanResult := scanResult p; isLoading := isLoading p;
     sectionProps := form p;
     sections := reconcile (panelCount (scanResult p)) (sections p) |}.

Definition render : Action := on_page render_page.

(** *** Setters *)

Definition setIsLoading (b : bool) : Action :=
  on_page (fun p =>
    {| form := form p; formErrors := formErrors p;
       scanResult := scanResult p; isLoading := b;
       sectionProps := sectionProps p; sections := sections p |}) ;; render.

Definition setScanResult (r : option ScanOutput) : Action :=
  on_page (fun p =>
    {| form := form p; formErrors := formErrors p;
       scanResult := r; isLoading := isLoading p;
       sectionProps := sectionProps p; sections := sections p |}) ;; render.

Definition setFormErrors (e : FieldErrors) : Action :=
  on_page (fun p =>
    {| form := form p; formErrors := e;
       scanResult := scanResult p; isLoading := isLoading p;
       sectionProps := sectionProps p; sections := sections p |}).

Definition setFormValues (v : FormValues) : Action :=
  on_page (fun p =>
    {| form := v; formErrors := formErrors p;
       scanResult := scanResult p; isLoading := isLoading p;
       sectionProps := sectionProps p; sections := sections p |}).

(** [field.onChange(lang)] of the language Select: the value changes; the
    page does not watch this field, so no render of the page follows by
    itself (see the event [Rerender]). *)
Definition setValue_language (lang : string) : Action := fun w =>
  setFormValues {| language := lang; code := code (form (page w)) |} w.

(** [form.setValue('code', text)] and the Textarea's [field.onChange]: the
    page calls [form.watch('code')] in its render (line 382), so it is
    rendered again on every change of this field. *)
Definition setValue_code (text : string) : Action := fun w =>
  (setFormValues {| language := language (form (page w)); code := text |}
   ;; render) w.

Definition on_section (k : nat) (f : RemediationState -> RemediationState)
  : Action :=
  on_page (fun p =>
    {| form := form p; formErrors := formErrors p;
       scanResult := scanResult p; isLoading := isLoading p;
       sectionProps := sectionProps p;
       sections := alter f k (sections p) |}).

(** The setters of the RemediationSection at index [k]; on a section that
    is not mounted they do nothing. *)
Definition setSectionLoading (k : nat) (b : bool) : Action :=
  on_section k (fun s =>
    {| rem_isLoading := b; suggestion := suggestion s |}).

Definition setSuggestion (k : nat) (v : option string) : Action :=
  on_section k (fun s =>
    {| rem_isLoading := rem_isLoading s; suggestion := v |}).

Definition setBpIsLoading (b : bool) : Action :=
  on_best (fun s =>
    {| bp_form := bp_form s; bp_error := bp_error s;
       bp_isLoading := b; bestPractices := bestPractices s |}).

Definition setBestPractices (v : option string) : Action :=
  on_best (fun s =>
    {| bp_form := bp_form s; bp_error := bp_error s;
       bp_isLoading := bp_isLoading s; bestPractices := v |}).

Definition setBpError (e : option string) : Action :=
  on_best (fun s =>
    {| bp_form := bp_form s; bp_error := e;
       bp_isLoading := bp_isLoading s; bestPractices := bestPractices s |}).

Definition setBpLanguage (lang : string) : Action :=
  on_best (fun s =>
    {| bp_form := {| bp_language := lang |}; bp_error := bp_error s;
       bp_isLoading := bp_isLoading s; bestPractices := bestPractices s |}).

(** *** Effects on the collaborators *)

(** Modelled from the spec: the hook of @/hooks/use-toast is not part
    of page.tsx.  It is the shared notification channel: [toast({...})]
    publishes one message, and the page, which subscribes through
    [useToast()] (line 222), is rendered again. *)
Definition toast (t : Toast) : Action :=
  (fun w =>
    {| page := page w; best := best w; toasts := toasts w ++ [t];
       gateway := gateway w; console := console w; reading := reading w |})
  ;; render.

Definition console_error : Action := fun w =>
  {| page := page w; best := best w; toasts := toasts w;
     gateway := gateway w; console := S (console w); reading := reading w |}.

Definition call (c : GatewayCall) : Action := fun w =>
  {| page := page w; best := best w; toasts := toasts w;
     gateway := gateway w ++ [c]; console := console w; reading := reading w |}.

Definition setReading (fs : list File) : Action := fun w =>
  {| page := page w; best := best w; toasts := toasts w;
     gateway := gateway w; console := console w; reading := fs |}.

(** ** Scan workflow (CodeShieldPage, lines 221-278) *)

Definition toast_no_vulnerabilities : Toast :=
  {| variant := variant_default;
     title := "Scan Complete: No Vulnerabilities Found";
     toast_description :=
       "The AI scan completed and found no potential vulnerabilities.";
     className :=
       Some "bg-green-100 dark:bg-green-900 border-green-400 dark:border-green-600" |}.

Definition toast_scan_failed : Toast :=
  {| variant := variant_destructive;
     title := "Scan Failed";
     toast_description :=
       "An error occurred while scanning the code. Please try again.";
     className := None |}.

(** onSubmit, lines 248-251: the statements up to the gateway call. *)
Definition onSubmit_call (values : FormValues) : Action :=
  setIsLoading true ;;
  setScanResult None ;;
  call (handleVulnerabilityScan values).

(** lines 252-259: the rest of the try block, once the promise is
    fulfilled with [result]. *)
Definition onSubmit_then (result : ScanOutput) : Action :=
  (if Z.of_nat (length (vulnerabilities result)) =? 0
   then toast toast_no_vulnerabilities
   else skip) ;;
  setScanResult (Some result).

(** lines 260-266 *)
Definition onSubmit_catch : Action :=
  console_error ;;
  toast toast_scan_failed.

(** lines 267-269 *)
Definition onSubmit_finally : Action := setIsLoading false.

(** The handler resumed after the [await]. *)
Definition onSubmit_settled (o : Settled ScanOutput) : Action :=
  match o with
  | Fulfilled result => onSubmit_then result
  | Rejected => onSubmit_catch
  end ;;
  onSubmit_finally.

(** The handler from its first statement to the point where it yields:
    a call that raises runs catch and finally in the same turn. *)
Definition onSubmit (values : FormValues) (i : Invocation) : Action :=
  onSubmit_call values ;;
  match i with
  | Throws => onSubmit_catch ;; onSubmit_finally
  | Returns => skip
  end.

(** [form.handleSubmit(onSubmit)], line 304: the resolver runs on the
    form's values; [onSubmit] is called with them only when no issue is
    raised, otherwise the issues become the field errors. *)
Definition handleSubmit_scan (i : Invocation) : Action := fun w =>
  let values := form (page w) in
  match formSchema values with
  | [] => (setFormErrors noErrors ;; onSubmit values i) w
  | issues => setFormErrors (zodResolver issues) w
  end.

(** handleFileChange, lines 235-245: [event.target.files?.[0]]; with a
    file, a FileReader is started on it. *)
Definition handleFileChange (files : option (list File)) : Action := fun w =>
  match files ≫= head with
  | Some file => setReading (reading w ++ [file]) w
  | None => w
  end.

(** [reader.onload], lines 239-242, for the [k]-th pending reader. *)
Definition reader_onload (k : nat) : Action := fun w =>
  match reading w !! k with
  | Some file =>
      (setReading (delete k (reading w)) ;; setValue_code (file_text file)) w
  | None => w
  end.

(** The Clear Code button, lines 377-386:
    [disabled={isLoading || !form.watch('code')}]. *)
Definition clearCode_disabled (w : World) : bool :=
  isLoading (page w) || (JS.length (code (form (page w))) =? 0).

Definition onClick_clearCode : Action := fun w =>
  if clearCode_disabled w then w else setValue_code "" w.

(** ** Remediation workflow (RemediationSection, lines 39-99) *)

Definition toast_remediation_failed : Toast :=
  {| variant := variant_destructive;
     title := "Failed to get remediation";
     toast_description :=
       "An error occurred while generating suggestions. Please try again.";
     className := None |}.

(** onGetRemediation of the section at index [k], lines 49-56, with the
    props of the section ([vulnerability], [language], [code]). *)
Definition onGetRemediation_call (k : nat) (vulnerability : Vulnerability)
    (lang code_ : string) : Action :=
  setSectionLoading k true ;;
  setSuggestion k None ;;
  call (handleRemediation code_ (description vulnerability) lang).

(** line 57 *)
Definition onGetRemediation_then (k : nat) (result : string) : Action :=
  setSuggestion k (Some result).

(** lines 58-64 *)
Definition onGetRemediation_catch : Action :=
  console_error ;;
  toast toast_remediation_failed.

(** lines 65-67 *)
Definition onGetRemediation_finally (k : nat) : Action :=
  setSectionLoading k false.

(** The handler resumed after the [await].  The setters it calls are
    those of the section that made the call; [k] is the index where that
    section is mounted.  This reads the code only while that section is
    still the one at [k]: a scan event in between unmounts it (lines
    249 and 395), and then the setters write nothing. *)
Definition onGetRemediation_settled (k : nat) (o : Settled string) : Action :=
  match o with
  | Fulfilled result => onGetRemediation_then k result
  | Rejected => onGetRemediation_catch
  end ;;
  onGetRemediation_finally k.

Definition onGetRemediation (k : nat) (vulnerability : Vulnerability)
    (lang code_ : string) (i : Invocation) : Action :=
  onGetRemediation_call k vulnerability lang code_ ;;
  match i with
  | Throws => onGetRemediation_catch ;; onGetRemediation_finally k
  | Returns => skip
  end.

(** The finding shown by the accordion item at index [k]. *)
Definition finding (w : World) (k : nat) : option Vulnerability :=
  scanResult (page w) ≫= fun r => vulnerabilities r !! k.

(** A click on Suggest a Fix of item [k] (line 72): the button exists
    when the section is mounted and is disabled while it is loading; the
    handler runs with the props of the page's latest render. *)
Definition onClick_suggestFix (k : nat) (i : Invocation) : Action := fun w =>
  match sections (page w) !! k, finding w k with
  | Some s, Some vulnerability =>
      if rem_isLoading s then w
      else onGetRemediation k vulnerability
             (language (sectionProps (page w)))
             (code (sectionProps (page w))) i w
  | _, _ => w
  end.

(** ** Best-practices workflow (BestPracticesSection, lines 123-219) *)

Definition toast_best_practices_failed : Toast :=
  {| variant := variant_destructive;
     title := "Failed to get best practices";
     toast_description :=
       "An error occurred while generating best practices. Please try again.";
     className := None |}.

(** lines 136-139 *)
Definition bp_onSubmit_call (values : BestPracticesValues) : Action :=
  setBpIsLoading true ;;
  setBestPractices None ;;
  call (handleBestPractices values).

(** line 140 *)
Definition bp_onSubmit_then (result : string) : Action :=
  setBestPractices (Some result).

(** lines 141-148 *)
Definition bp_onSubmit_catch : Action :=
  console_error ;;
  toast toast_best_practices_failed.

(** lines 149-151 *)
Definition bp_onSubmit_finally : Action := setBpIsLoading false.

Definition bp_onSubmit_settled (o : Settled string) : Action :=
  match o with
  | Fulfilled result => bp_onSubmit_then result
  | Rejected => bp_onSubmit_catch
  end ;;
  bp_onSubmit_finally.

Definition bp_onSubmit (values : BestPracticesValues) (i : Invocation)
  : Action :=
  bp_onSubmit_call values ;;
  match i with
  | Throws => bp_onSubmit_catch ;; bp_onSubmit_finally
  | Returns => skip
  end.

(** [form.handleSubmit(onSubmit)], line 167. *)
Definition handleSubmit_bp (i : Invocation) : Action := fun w =>
  let values := bp_form (best w) in
  match bestPracticesFormSchema values with
  | [] => (setBpError None ;; bp_onSubmit values i) w
  | issues => setBpError (first_message field_language issues) w
  end.

(** ** Events of the page *)

(** What the user and the event loop do to the page.  The
    [...Settled] events resume a handler at its [await].
    [RemediationSettled k] is the settlement of the request that the
    section now mounted at index [k] made: it is the page's event in
    runs without a scan event between the click and the settlement.
    The settlement of a request whose section has been unmounted writes
    no section; it is the event at an index with no section.
    [Rerender] stands for every render of the page that the other
    events do not already cause. *)
Inductive Event :=
| SelectLanguage (lang : string)         (* scan form Select, line 312 *)
| TypeCode (text : string)               (* Textarea, line 339 *)
| ClickClearCode                         (* line 380 *)
| ChooseFiles (files : option (list File))   (* file input, line 373 *)
| FileLoaded (k : nat)                   (* reader.onload, line 239 *)
| SubmitScan (i : Invocation)            (* scan form submit, line 304 *)
| ScanSettled (o : Settled ScanOutput)   (* promise of line 251 settles *)
| ClickSuggestFix (k : nat) (i : Invocation)        (* line 72 *)
| RemediationSettled (k : nat) (o : Settled string) (* promise of line 52 *)
| SelectBestPracticesLanguage (lang : string)       (* line 175 *)
| SubmitBestPractices (i : Invocation)   (* line 167 *)
| BestPracticesSettled (o : Settled string)         (* promise of line 139 *)
| Rerender.                              (* any other render of the page *)

(** The Select controls offer the supported languages only (lines
    182-184 and 319-321); the submit buttons are disabled while their
    workflow is loading (lines 192 and 347). *)
Definition step (e : Event) : Action := fun w =>
  match e with
  | SelectLanguage lang =>
      if bool_decide (lang ∈ supportedLanguages)
      then setValue_language lang w else w
  | TypeCode text => setValue_code text w
  | ClickClearCode => onClick_clearCode w
  | ChooseFiles files => handleFileChange files w
  | FileLoaded k => reader_onload k w
  | SubmitScan i =>
      if isLoading (page w) then w else handleSubmit_scan i w
  | ScanSettled o => onSubmit_settled o w
  | ClickSuggestFix k i => onClick_suggestFix k i w
  | RemediationSettled k o => onGetRemediation_settled k o w
  | SelectBestPracticesLanguage lang =>
      if bool_decide (lang ∈ supportedLanguages)
      then setBpLanguage lang w else w
  | SubmitBestPractices i =>
      if bp_isLoading (best w) then w else handleSubmit_bp i w
  | BestPracticesSettled o => bp_onSubmit_settled o w
  | Rerender => render w
  end.

Definition run (events : list Event) : Action := fun w =>
  fold_left (fun w e => step e w) events w.

(** ** The result card (lines 395-455) *)

(** One accordion item: its value [item-<index>] as the index, the
    trigger's description and badge, and the content's fields. *)
Record Panel := {
  panel_index : nat;
  panel_description : string;
  panel_badge : BadgeVariant;
  panel_severity : string;
  panel_location : string;
  panel_recommendation : string;
  panel_references : list string
}.

Definition render_panel (index : nat) (vuln : Vulnerability) : Panel :=
  {| panel_index := index;
     panel_description := description vuln;
     panel_badge := getBadgeVariant (severity vuln);
     panel_severity := severity vuln;
     panel_location := location vuln;
     panel_recommendation := recommendation vuln;
     panel_references :=
       match references vuln with Some refs => refs | None => [] end |}.

(** [scanResult && scanResult.vulnerabilities.length > 0 && ...map(...)] *)
Definition render_panels (w : World) : list Panel :=
  match scanResult (page w) with
  | Some r =>
      if 0 <? Z.of_nat (length (vulnerabilities r))
      then imap render_panel (vulnerabilities r)
      else []
  | None => []
  end.


(** ** Invocations and the events around them *)

(** The rest of an invocation after its handler has yielded: nothing when
    the call raised (catch and finally have already run); otherwise the
    events that occur while the promise is pending, then the handler
    resumed with the outcome. *)
Definition completes (i : Invocation) (between : list Event) (settled : Action)
  : Action :=
  match i with
  | Throws => skip
  | Returns => run between ;; settled
  end.

(** One completed invocation of each workflow's handler. *)
Definition scan_invocation (values : FormValues) (i : Invocation)
    (between : list Event) (o : Settled ScanOutput) : Action :=
  onSubmit values i ;; completes i between (onSubmit_settled o).

(** For a remediation request the settlement is that of the section at
    [k]; the properties of this composition are stated for [between]
    without scan events, where that section is the one that made the
    call. *)
Definition remediation_invocation (k : nat) (vulnerability : Vulnerability)
    (lang code_ : string) (i : Invocation) (between : list Event)
    (o : Settled string) : Action :=
  onGetRemediation k vulnerability lang code_ i ;;
  completes i between (onGetRemediation_settled k o).

Definition bp_invocation (values : BestPracticesValues) (i : Invocation)
    (between : list Event) (o : Settled string) : Action :=
  bp_onSubmit values i ;; completes i between (bp_onSubmit_settled o).

(** Events of the scan workflow. *)
Definition scan_event (e : Event) : bool :=
  match e with
  | SubmitScan _ | ScanSettled _ => true
  | _ => false
  end.

(** Events that write a field of the scan form. *)
Definition form_edit (e : Event) : bool :=
  match e with
  | SelectLanguage _ | TypeCode _ | ClickClearCode | FileLoaded _ => true
  | _ => false
  end.

(** Events of the remediation section at index [k]. *)
Definition remediation_event (k : nat) (e : Event) : bool :=
  match e with
  | ClickSuggestFix j _ | RemediationSettled j _ => bool_decide (j = k)
  | _ => false
  end.

(** Events of the best-practices workflow. *)
Definition bp_event (e : Event) : bool :=
  match e with
  | SubmitBestPractices _ | BestPracticesSettled _ => true
  | _ => false
  end.

(** The sections mounted are those of the result's findings: what every
    render of the page establishes. *)
Definition consistent (w : World) : Prop :=
  length (sections (page w)) = panelCount (scanResult (page w)).

Definition reachable (w : World) : Prop :=
  exists events, w = run events initialWorld.

(** What a section shows once its request has settled with [o]. *)
Definition shown (o : Settled string) : RemediationState :=
  {| rem_isLoading := false;
     suggestion := match o with Fulfilled s => Some s | Rejected => None end |}.

(** ** What the components show *)

(** A string in a JSX condition ([s && ...]): every string but the
    empty one is truthy. *)
Definition truthy (s : string) : bool := negb (JS.length s =? 0).

(** RemediationSection's render (lines 70-98): the button and its
    label, the skeleton, and the block with the suggestion. *)
Record SectionView := {
  fix_disabled : bool;
  fix_label : string;
  fix_skeleton : bool;
  fix_block : option string
}.

Definition render_section (s : RemediationState) : SectionView :=
  {| fix_disabled := rem_isLoading s;
     fix_label := if rem_isLoading s then "Generating Fix..." else "Suggest a Fix";
     fix_skeleton := rem_isLoading s;
     fix_block :=
       match suggestion s with
       | Some text => if truthy text then Some text else None
       | None => None
       end |}.

(** BestPracticesSection's render (lines 192-215): the submit button,
    the skeleton, and the block whose inner HTML is the result. *)
Record BestPracticesView := {
  bpv_disabled : bool;
  bpv_label : string;
  bpv_skeleton : bool;
  bpv_html : option string
}.

Definition render_best (s : BestPractices) : BestPracticesView :=
  {| bpv_disabled := bp_isLoading s;
     bpv_label := if bp_isLoading s then "Generating..." else "Get Best Practices";
     bpv_skeleton := bp_isLoading s;
     bpv_html :=
       match bestPractices s with
       | Some html => if truthy html then Some html else None
       | None => None
       end |}.

(** LoadingState (lines 101-121): three placeholder rows, keyed 0..2;
    the page renders it while [isLoading] (line 393). *)
Definition LoadingState : list nat := List.seq 0 3.

Definition render_loading (w : World) : option (list nat) :=
  if isLoading (page w) then Some LoadingState else None.

(** ** The gateway log *)

(** The call, if any, that an event makes when it occurs in [w]. *)
Definition issued (e : Event) (w : World) : list GatewayCall :=
  match e with
  | SubmitScan _ =>
      if isLoading (page w) then []
      else match formSchema (form (page w)) with
           | [] => [handleVulnerabilityScan (form (page w))]
           | _ => []
           end
  | ClickSuggestFix k _ =>
      match sections (page w) !! k, finding w k with
      | Some s, Some vulnerability =>
          if rem_isLoading s then []
          else [handleRemediation (code (sectionProps (page w)))
                  (description vulnerability)
                  (language (sectionProps (page w)))]
      | _, _ => []
      end
  | SubmitBestPractices _ =>
      if bp_isLoading (best w) then []
      else match bestPracticesFormSchema (bp_form (best w)) with
           | [] => [handleBestPractices (bp_form (best w))]
           | _ => []
           end
  | _ => []
  end.

Definition is_scan_call (c : GatewayCall) : bool :=
  match c with handleVulnerabilityScan _ => true | _ => false end.

Definition is_bp_call (c : GatewayCall) : bool :=
  match c with handleBestPractices _ => true | _ => false end.

(** A language a Select can hold: none yet, or one of its options. *)
Definition selectable (lang : string) : Prop :=
  lang = "" \/ lang ∈ supportedLanguages.

(** What the page guarantees of a call's arguments. *)
Definition call_validated (c : GatewayCall) : Prop :=
  match c with
  | handleVulnerabilityScan values =>
      language values ∈ supportedLanguages
      /\ 20 <= JS.length (code values) <= 8000
  | handleRemediation _ _ lang => selectable lang
  | handleBestPractices values => bp_language values ∈ supportedLanguages
  end.

(** ** The toasts of the page *)

Definition is_destructive (t : Toast) : bool :=
  match variant t with variant_destructive => true | variant_default => false end.

Definition page_toasts : list Toast :=
  [toast_no_vulnerabilities; toast_scan_failed; toast_remediation_failed;
   toast_best_practices_failed].

Definition is_scan_settled (e : Event) : bool :=
  match e with ScanSettled _ => true | _ => false end.

Definition is_bp_settled (e : Event) : bool :=
  match e with BestPracticesSettled _ => true | _ => false end.

(** The events that ask the gateway for something: the two submits and
    the click on Suggest a Fix. *)
Definition requesting (e : Event) : bool :=
  match e with
  | SubmitScan _ | ClickSuggestFix _ _ | SubmitBestPractices _ => true
  | _ => false
  end.

(** Every language a component holds came from a Select. *)
Definition languages_selectable (w : World) : Prop :=
  selectable (language (form (page w)))
  /\ selectable (language (sectionProps (page w)))
  /\ selectable (bp_language (bp_form (best w))).

(** The settlement of the request of the section at [k]. *)
Definition settles_section (k : nat) (e : Event) : bool :=
  match e with
  | RemediationSettled j _ => bool_decide (j = k)
  | _ => false
  end.

(** A section that is loading shows no suggestion. *)
Definition quiet_while_loading (s : RemediationState) : Prop :=
  rem_isLoading s = true -> suggestion s = None.

(** No component shows its skeleton together with its result. *)
Definition skeleton_excludes_result (w : World) : Prop :=
  (isLoading (page w) = true -> scanResult (page w) = None)
  /\ Forall quiet_while_loading (sections (page w))
  /\ (bp_isLoading (best w) = true -> bestPractices (best w) = None).

(** Every failure is logged once and notified once. *)
Definition failures_accounted (w : World) : Prop :=
  console w = length (List.filter is_destructive (toasts w))
  /\ Forall (fun t => t ∈ page_toasts) (toasts w).

(** The badge variants from the plainest to the most alarming. *)
Definition rank (b : BadgeVariant) : nat :=
  match b with
  | default => 0
  | outline => 1
  | secondary => 2
  | destructive => 3
  end.

(** Rendering and the schemas are reasoned about through their lemmas. *)
Arguments reconcile : simpl never.
Arguments panelCount : simpl never.
Arguments formSchema : simpl never.
Arguments bestPracticesFormSchema : simpl never.

(** * Proofs *)

(** *** Lemmas on the string primitives *)

Lemma toLowerCase_app (a b : string) :
  JS.toLowerCase (a +:+ b) = JS.toLowerCase a +:+ JS.toLowerCase b.
Proof.
  induction a as [|c a IH]; simpl; [reflexivity|].
  now rewrite IH.
Qed.

(** A split of the lowered string comes from a split of the string. *)
Lemma toLowerCase_split (s p q : string) :
  JS.toLowerCase s = p +:+ q ->
  exists a b, s = a +:+ b /\ JS.toLowerCase a = p /\ JS.toLowerCase b = q.
Proof.
  revert p; induction s as [|c s IH]; intros p H; simpl in H.
  - destruct p; simpl in H; [|discriminate].
    exists "", ""; repeat split; auto.
  - destruct p as [|d p]; simpl in H.
    + exists "", (String c s); repeat split; auto.
    + injection H as Hd Hs.
      destruct (IH p Hs) as (a & b & -> & Ha & Hb).
      exists (String c a), b; simpl; repeat split; auto.
      now rewrite Hd, Ha.
Qed.

Lemma startsWith_spec (s sub : string) :
  JS.startsWith s sub = true <-> exists suf, s = sub +:+ suf.
Proof.
  revert s; induction sub as [|a sub IH]; intros s; simpl.
  - split; [intros _; now exists s | reflexivity].
  - destruct s as [|b s].
    + split; [discriminate | intros [suf H]; discriminate].
    + rewrite andb_true_iff, IH, Ascii.eqb_eq. split.
      * intros [-> [suf ->]]. now exists suf.
      * intros [suf H]. injection H as -> ->. split; [reflexivity | now exists suf].
Qed.

Lemma includes_spec (s sub : string) :
  JS.includes s sub = true <-> exists pre suf, s = pre +:+ sub +:+ suf.
Proof.
  induction s as [|c s IH]; cbn [JS.includes].
  - rewrite orb_false_r, startsWith_spec. split.
    + intros [suf H]. now exists "", suf.
    + intros (pre & suf & H). destruct pre; simpl in H; [now exists suf|discriminate].
  - rewrite orb_true_iff, IH.
    rewrite startsWith_spec. split.
    + intros [[suf H] | (pre & suf & ->)].
      * now exists "", suf.
      * now exists (String c pre), suf.
    + intros (pre & suf & H). destruct pre as [|d pre]; simpl in H.
      * left. now exists suf.
      * right. injection H as -> ->. now exists pre, suf.
Qed.

(** Searching the lowered severity for a lower-case keyword is the
    case-insensitive search of the severity itself. *)
Lemma includes_lower_ci (s kw : string) :
  JS.toLowerCase kw = kw ->
  JS.includes (JS.toLowerCase s) kw = true <-> contains_ci s kw.
Proof.
  intros Hkw. rewrite includes_spec. unfold contains_ci, eq_ignoring_case. split.
  - intros (p & q & H).
    destruct (toLowerCase_split _ _ _ H) as (a & rest & -> & Ha & Hrest).
    destruct (toLowerCase_split _ _ _ Hrest) as (m & b & -> & Hm & Hb).
    exists a, m, b. split; [reflexivity | now rewrite Hkw].
  - intros (pre & mid & suf & -> & H).
    exists (JS.toLowerCase pre), (JS.toLowerCase suf).
    now rewrite !toLowerCase_app, H, Hkw.
Qed.

Lemma includes_lower_ci_false (s kw : string) :
  JS.toLowerCase kw = kw ->
  JS.includes (JS.toLowerCase s) kw = false <-> ~ contains_ci s kw.
Proof.
  intros Hkw. rewrite <- (includes_lower_ci s kw Hkw).
  destruct (JS.includes _ _); split; intros; congruence.
Qed.

(** *** Evaluating the handlers *)

Ltac run_handlers := cbn.

(** *** The schemas, case by case *)

Lemma string_at_min_max (p : Field) (lo hi : Z) (mlo mhi data : string) :
  lo <= hi ->
  Zod.string_at p [Zod.min lo mlo; Zod.max hi mhi] data =
    if JS.length data <? lo then [{| path := p; message := mlo |}]
    else if JS.length data >? hi then [{| path := p; message := mhi |}]
    else [].
Proof.
  intros Hle. unfold Zod.string_at. cbn.
  destruct (Z.ltb_spec (JS.length data) lo), (Z.gtb_spec (JS.length data) hi);
    cbn; try reflexivity; lia.
Qed.

Lemma string_at_min (p : Field) (lo : Z) (mlo data : string) :
  Zod.string_at p [Zod.min lo mlo] data =
    if JS.length data <? lo then [{| path := p; message := mlo |}] else [].
Proof. unfold Zod.string_at. cbn. now destruct (JS.length data <? lo). Qed.

Lemma length_lt_1 (s : string) : (JS.length s <? 1) = true <-> s = "".
Proof.
  unfold JS.length. destruct s; cbn [String.length]; split; intros H;
    try reflexivity; try discriminate.
  apply Z.ltb_lt in H. lia.
Qed.

Lemma length_lt_1_false (s : string) : (JS.length s <? 1) = false <-> s <> "".
Proof.
  rewrite <- length_lt_1. destruct (JS.length s <? 1); split; congruence.
Qed.

(** What [formSchema] raises, by the four cases of its two fields. *)
Lemma formSchema_cases (values : FormValues) :
  formSchema values =
    (if JS.length (language values) <? 1
     then [{| path := field_language; message := msg_select_language |}]
     else [])
    ++ (if JS.length (code values) <? 20
        then [{| path := field_code; message := msg_code_too_short |}]
        else if JS.length (code values) >? 8000
        then [{| path := field_code; message := msg_code_too_long |}]
        else []).
Proof.
  unfold formSchema. rewrite string_at_min, string_at_min_max by lia.
  reflexivity.
Qed.

Lemma formSchema_valid_iff (values : FormValues) :
  formSchema values = [] <->
  language values <> "" /\ 20 <= JS.length (code values) <= 8000.
Proof.
  rewrite formSchema_cases, <- length_lt_1_false.
  destruct (JS.length (language values) <? 1);
    destruct (Z.ltb_spec (JS.length (code values)) 20);
    destruct (Z.gtb_spec (JS.length (code values)) 8000);
    cbn; (split; [intros H1 | intros [H1 H2]]);
    try discriminate; try reflexivity; try congruence; try lia;
    split; try congruence; lia.
Qed.

(** A submission calls the gateway exactly when the schema raises no
    issue, and then with the form's values. *)
Lemma handleSubmit_scan_gateway (i : Invocation) (w : World) :
  gateway (handleSubmit_scan i w) =
    match formSchema (form (page w)) with
    | [] => gateway w ++ [handleVulnerabilityScan (form (page w))]
    | _ => gateway w
    end.
Proof.
  unfold handleSubmit_scan.
  destruct (formSchema (form (page w))); [|reflexivity].
  destruct i; run_handlers; reflexivity.
Qed.

Lemma handleSubmit_scan_errors (i : Invocation) (w : World) :
  formErrors (page (handleSubmit_scan i w)) =
    zodResolver (formSchema (form (page w))).
Proof.
  unfold handleSubmit_scan.
  destruct (formSchema (form (page w))) eqn:E; [|reflexivity].
  destruct i; run_handlers; reflexivity.
Qed.

(** ** Severity badge and validation *)

(** C5. For every severity string the badge variant follows from
    case-insensitive substring matching, the first match winning:
    "high" or "critical" gives destructive; otherwise "medium" gives
    secondary; otherwise "low" gives outline; otherwise default. *)
Theorem getBadgeVariant_first_match (sev : string) :
  let hi := contains_ci sev "high" \/ contains_ci sev "critical" in
  let med := contains_ci sev "medium" in
  let lo := contains_ci sev "low" in
  (hi -> getBadgeVariant sev = destructive)
  /\ (~ hi -> med -> getBadgeVariant sev = secondary)
  /\ (~ hi -> ~ med -> lo -> getBadgeVariant sev = outline)
  /\ (~ hi -> ~ med -> ~ lo -> getBadgeVariant sev = default).
Proof.
  cbv zeta. unfold getBadgeVariant.
  pose proof (includes_lower_ci sev "high" eq_refl) as Hh.
  pose proof (includes_lower_ci sev "critical" eq_refl) as Hc.
  pose proof (includes_lower_ci sev "medium" eq_refl) as Hm.
  pose proof (includes_lower_ci sev "low" eq_refl) as Hl.
  destruct (JS.includes (JS.toLowerCase sev) "high");
    destruct (JS.includes (JS.toLowerCase sev) "critical");
    destruct (JS.includes (JS.toLowerCase sev) "medium");
    destruct (JS.includes (JS.toLowerCase sev) "low");
    cbn [orb]; repeat split; intros; try reflexivity; exfalso;
    intuition congruence.
Qed.

Lemma getBadgeVariant_first_match_witness :
  getBadgeVariant "Low to HIGH" = destructive
  /\ getBadgeVariant "MeDiUm/low" = secondary.
Proof.
  split.
  - apply (proj1 (getBadgeVariant_first_match "Low to HIGH")).
    left. exists "Low to ", "HIGH", "". split; reflexivity.
  - apply (proj1 (proj2 (getBadgeVariant_first_match "MeDiUm/low"))).
    + intros [H | H]; revert H; apply includes_lower_ci_false; reflexivity.
    + exists "", "MeDiUm", "/low". split; reflexivity.
Defined.

(** The rule at work: the order of the tests decides mixed severities,
    and letter case does not matter. *)
Example getBadgeVariant_samples :
  getBadgeVariant "HIGH" = destructive
  /\ getBadgeVariant "Critical" = destructive
  /\ getBadgeVariant "Low to High" = destructive
  /\ getBadgeVariant "MeDiUm/low" = secondary
  /\ getBadgeVariant "very low" = outline
  /\ getBadgeVariant "informational" = default
  /\ getBadgeVariant "" = default.
Proof. repeat split; reflexivity. Qed.

(** C3. A scan submission calls the gateway only when the code's length
    is between 20 and 8000: a shorter code gets the too-short field
    error, a longer one the too-long field error, in both cases without
    a gateway call, and a length from 20 to 8000, bounds included,
    raises no issue on the code field. *)
Theorem scan_submission_code_bounds (i : Invocation) (w : World) :
  let len := JS.length (code (form (page w))) in
  let w' := handleSubmit_scan i w in
  (gateway w' <> gateway w -> 20 <= len <= 8000)
  /\ (len < 20 ->
      err_code (formErrors (page w')) = Some msg_code_too_short
      /\ gateway w' = gateway w)
  /\ (8000 < len ->
      err_code (formErrors (page w')) = Some msg_code_too_long
      /\ gateway w' = gateway w)
  /\ (20 <= len <= 8000 ->
      err_code (formErrors (page w')) = None
      /\ (language (form (page w)) <> "" ->
          gateway w' = gateway w ++ [handleVulnerabilityScan (form (page w))])).
Proof.
  cbv zeta.
  rewrite handleSubmit_scan_gateway, handleSubmit_scan_errors.
  rewrite formSchema_cases.
  destruct (JS.length (language (form (page w))) <? 1) eqn:El;
    destruct (Z.ltb_spec (JS.length (code (form (page w)))) 20);
    destruct (Z.gtb_spec (JS.length (code (form (page w)))) 8000);
    cbn; repeat split; intros; try reflexivity; try lia; try congruence;
    try (exfalso; apply length_lt_1_false in El; congruence);
    try (apply length_lt_1 in El; congruence).
Qed.

Lemma scan_submission_code_bounds_witness :
  let w := setFormValues {| language := "Python"; code := "eval(input())" |}
             initialWorld in
  err_code (formErrors (page (handleSubmit_scan Returns w)))
    = Some msg_code_too_short
  /\ gateway (handleSubmit_scan Returns w) = gateway w.
Proof.
  cbv zeta.
  apply (proj1 (proj2 (scan_submission_code_bounds Returns
           (setFormValues {| language := "Python"; code := "eval(input())" |}
              initialWorld)))).
  reflexivity.
Defined.

(** The bounds themselves: codes of 20 and of 8000 characters are
    scanned, codes of 19 and of 8001 characters are not. *)
Example scan_submission_at_the_bounds :
  let a n := string_of_list_ascii (repeat "a"%char (Z.to_nat n)) in
  let submit n :=
    handleSubmit_scan Returns
      (setFormValues {| language := "Python"; code := a n |} initialWorld) in
  gateway (submit 20) =
    [handleVulnerabilityScan {| language := "Python"; code := a 20 |}]
  /\ gateway (submit 8000) =
    [handleVulnerabilityScan {| language := "Python"; code := a 8000 |}]
  /\ gateway (submit 19) = []
  /\ err_code (formErrors (page (submit 19))) = Some msg_code_too_short
  /\ gateway (submit 8001) = []
  /\ err_code (formErrors (page (submit 8001))) = Some msg_code_too_long.
Proof. cbv zeta. repeat split; vm_compute; reflexivity. Qed.

Lemma handleSubmit_bp_gateway (i : Invocation) (w : World) :
  gateway (handleSubmit_bp i w) =
    match bestPracticesFormSchema (bp_form (best w)) with
    | [] => gateway w ++ [handleBestPractices (bp_form (best w))]
    | _ => gateway w
    end.
Proof.
  unfold handleSubmit_bp.
  destruct (bestPracticesFormSchema (bp_form (best w))); [|reflexivity].
  destruct i; run_handlers; reflexivity.
Qed.

Lemma handleSubmit_bp_error (i : Invocation) (w : World) :
  bp_error (best (handleSubmit_bp i w)) =
    first_message field_language (bestPracticesFormSchema (bp_form (best w))).
Proof.
  unfold handleSubmit_bp.
  destruct (bestPracticesFormSchema (bp_form (best w))) eqn:E; [|reflexivity].
  destruct i; run_handlers; reflexivity.
Qed.

(** C4. A submission of the scan form or of the best-practices form
    with an empty language selection is rejected with the field error
    of the language field, and no gateway call is made. *)
Theorem empty_language_rejected (i : Invocation) (w : World) :
  (language (form (page w)) = "" ->
     err_language (formErrors (page (handleSubmit_scan i w)))
       = Some msg_select_language
     /\ gateway (handleSubmit_scan i w) = gateway w)
  /\ (bp_language (bp_form (best w)) = "" ->
     bp_error (best (handleSubmit_bp i w)) = Some msg_select_language
     /\ gateway (handleSubmit_bp i w) = gateway w).
Proof.
  split; intros H.
  - rewrite handleSubmit_scan_gateway, handleSubmit_scan_errors,
      formSchema_cases, H.
    cbn. split; reflexivity.
  - rewrite handleSubmit_bp_gateway, handleSubmit_bp_error.
    unfold bestPracticesFormSchema. rewrite string_at_min, H.
    cbn. split; reflexivity.
Qed.

(** The page as first rendered has both language fields empty: either
    submit is rejected there. *)
Lemma empty_language_rejected_initially :
  (err_language (formErrors (page (handleSubmit_scan Returns initialWorld)))
     = Some msg_select_language
   /\ gateway (handleSubmit_scan Returns initialWorld) = [])
  /\ (bp_error (best (handleSubmit_bp Returns initialWorld))
        = Some msg_select_language
      /\ gateway (handleSubmit_bp Returns initialWorld) = []).
Proof.
  destruct (empty_language_rejected Returns initialWorld) as [Hs Hb].
  split; [apply Hs | apply Hb]; reflexivity.
Defined.

(** The schema by itself asks only for a chosen language: with a
    non-empty language the language field raises no error, and the
    submission is rejected exactly when the code's length is outside
    20..8000. *)
Lemma nonempty_language_passes (i : Invocation) (w : World) :
  language (form (page w)) <> "" ->
  let len := JS.length (code (form (page w))) in
  let w' := handleSubmit_scan i w in
  err_language (formErrors (page w')) = None
  /\ (20 <= len <= 8000 ->
      gateway w' = gateway w ++ [handleVulnerabilityScan (form (page w))])
  /\ (~ (20 <= len <= 8000) ->
      gateway w' = gateway w /\ err_code (formErrors (page w')) <> None).
Proof.
  intros Hl. cbv zeta.
  rewrite handleSubmit_scan_gateway, handleSubmit_scan_errors.
  rewrite formSchema_cases.
  apply length_lt_1_false in Hl. rewrite Hl.
  destruct (Z.ltb_spec (JS.length (code (form (page w)))) 20);
    destruct (Z.gtb_spec (JS.length (code (form (page w)))) 8000);
    cbn; repeat split; intros; try reflexivity; try lia; discriminate.
Qed.

(** C10. A change event of the file input with an empty file list (or
    with none) updates nothing: the code field, the rest of the form and
    every other part of the state are as before, and no reader is
    started that could update them later. *)
Theorem handleFileChange_no_file (w : World) :
  handleFileChange (Some []) w = w
  /\ handleFileChange None w = w
  /\ step (ChooseFiles (Some [])) w = w.
Proof. repeat split. Qed.

(** With a file the handler starts a reader, and the code field is
    replaced by the file's text when that reader has loaded. *)
Lemma handleFileChange_file (file : File) (rest : list File) (w : World) :
  reading w = [] ->
  let w1 := handleFileChange (Some (file :: rest)) w in
  reading w1 = [file]
  /\ page w1 = page w
  /\ code (form (page (reader_onload 0 w1))) = file_text file
  /\ language (form (page (reader_onload 0 w1))) = language (form (page w)).
Proof.
  intros H. cbv zeta. unfold handleFileChange, reader_onload. cbn.
  unfold setReading at 2. cbn. rewrite H. cbn.
  repeat split.
Qed.

(** *** Rendering and the mounted sections *)

Lemma length_reconcile (n : nat) (old : list RemediationState) :
  length (reconcile n old) = n.
Proof.
  unfold reconcile. rewrite length_app, length_take, length_replicate. lia.
Qed.

Lemma reconcile_id (n : nat) (old : list RemediationState) :
  length old = n -> reconcile n old = old.
Proof.
  intros <-. unfold reconcile.
  rewrite firstn_all, Nat.sub_diag. cbn. apply app_nil_r.
Qed.

Lemma render_consistent (w : World) : consistent (render w).
Proof. unfold consistent. cbn. apply length_reconcile. Qed.

Lemma panelCount_length (r : ScanOutput) :
  panelCount (Some r) = length (vulnerabilities r).
Proof.
  unfold panelCount. destruct (vulnerabilities r); reflexivity.
Qed.

(** *** Steps, event by event *)

Ltac unfold_step :=
  unfold step, onClick_clearCode, handleFileChange, reader_onload,
    onClick_suggestFix, handleSubmit_scan, handleSubmit_bp in *.

Ltac break_match :=
  repeat match goal with
  | |- context [match ?x with _ => _ end] => destruct x eqn:?
  end.

Ltac split_outcomes :=
  repeat match goal with
  | i : Invocation |- _ => destruct i
  | o : Settled _ |- _ => destruct o
  end.

Ltac by_cases e :=
  destruct e; split_outcomes; unfold_step;
  unfold onSubmit_settled, onSubmit_then; break_match; run_handlers.

Lemma consistent_step (e : Event) (w : World) :
  consistent w -> consistent (step e w).
Proof.
  intros H. unfold consistent in *.
  by_cases e; repeat first [rewrite length_alter | rewrite length_reconcile];
    try assumption; reflexivity.
Qed.

Lemma run_app (es1 es2 : list Event) (w : World) :
  run (es1 ++ es2) w = run es2 (run es1 w).
Proof. unfold run. apply fold_left_app. Qed.

Lemma run_cons (e : Event) (es : list Event) (w : World) :
  run (e :: es) w = run es (step e w).
Proof. reflexivity. Qed.

Lemma consistent_run (es : list Event) (w : World) :
  consistent w -> consistent (run es w).
Proof.
  revert w; induction es as [|e es IH]; intros w H; [exact H|].
  rewrite run_cons. apply IH, consistent_step, H.
Qed.

Lemma reachable_consistent (w : World) : reachable w -> consistent w.
Proof. intros [es ->]. apply consistent_run. reflexivity. Qed.

Lemma reachable_step (e : Event) (w : World) :
  reachable w -> reachable (step e w).
Proof.
  intros [es ->]. exists (es ++ [e]). now rewrite run_app.
Qed.

(** Only the scan workflow writes the scan result and its loading flag. *)
Lemma step_scanResult (e : Event) (w : World) :
  scan_event e = false ->
  scanResult (page (step e w)) = scanResult (page w)
  /\ isLoading (page (step e w)) = isLoading (page w).
Proof.
  intros H. by_cases e; try discriminate; split; reflexivity.
Qed.

(** Only edits write the scan form. *)
Lemma step_form (e : Event) (w : World) :
  form_edit e = false -> form (page (step e w)) = form (page w).
Proof.
  intros H. by_cases e; try discriminate; reflexivity.
Qed.

(** The code prop of the sections is the form's code in every world the
    page can reach: each change of the code field renders the page. *)
Lemma step_code_prop (e : Event) (w : World) :
  code (sectionProps (page w)) = code (form (page w)) ->
  code (sectionProps (page (step e w))) = code (form (page (step e w))).
Proof.
  intros H. by_cases e; try assumption; reflexivity.
Qed.

Lemma reachable_code_prop (w : World) :
  reachable w -> code (sectionProps (page w)) = code (form (page w)).
Proof.
  intros [es ->].
  induction es as [|e es IH] using rev_ind; [reflexivity|].
  rewrite run_app. cbn. apply step_code_prop, IH.
Qed.






(** A step that belongs neither to the scan workflow nor to the section
    at [k] leaves that section as it is. *)
Lemma step_section (k : nat) (e : Event) (w : World) :
  consistent w ->
  scan_event e = false ->
  remediation_event k e = false ->
  sections (page (step e w)) !! k = sections (page w) !! k.
Proof.
  unfold consistent. intros Hc Hs Hr.
  by_cases e; try discriminate; rewrite ?(reconcile_id _ _ Hc);
    try reflexivity.
  all: cbn in Hr; apply bool_decide_eq_false in Hr.
  all: rewrite ?reconcile_id by (rewrite ?length_alter; exact Hc).
  all: rewrite ?list_lookup_alter_ne by assumption; reflexivity.
Qed.

(** Only the best-practices workflow writes its result and loading flag. *)
Lemma step_bestPractices (e : Event) (w : World) :
  bp_event e = false ->
  bestPractices (best (step e w)) = bestPractices (best w)
  /\ bp_isLoading (best (step e w)) = bp_isLoading (best w).
Proof.
  intros H. by_cases e; try discriminate; split; reflexivity.
Qed.

(** *** Runs of events *)

Lemma run_scanResult (es : list Event) (w : World) :
  Forall (fun e => scan_event e = false) es ->
  scanResult (page (run es w)) = scanResult (page w)
  /\ isLoading (page (run es w)) = isLoading (page w).
Proof.
  intros H; revert w; induction H as [|e es He _ IH]; intros w; [now split|].
  rewrite run_cons. destruct (IH (step e w)) as [-> ->].
  now apply step_scanResult.
Qed.

Lemma run_form (es : list Event) (w : World) :
  Forall (fun e => form_edit e = false) es ->
  form (page (run es w)) = form (page w).
Proof.
  intros H; revert w; induction H as [|e es He _ IH]; intros w; [reflexivity|].
  rewrite run_cons, IH. now apply step_form.
Qed.

Lemma run_section (k : nat) (es : list Event) (w : World) :
  consistent w ->
  Forall (fun e => scan_event e = false /\ remediation_event k e = false) es ->
  sections (page (run es w)) !! k = sections (page w) !! k.
Proof.
  intros Hc H; revert w Hc.
  induction H as [|e es [He1 He2] _ IH]; intros w Hc; [reflexivity|].
  rewrite run_cons, IH by now apply consistent_step.
  now apply step_section.
Qed.


(** Without a scan event the same sections stay mounted. *)
Lemma run_mounted (k : nat) (es : list Event) (w : World) :
  consistent w ->
  Forall (fun e => scan_event e = false) es ->
  is_Some (sections (page w) !! k) ->
  is_Some (sections (page (run es w)) !! k).
Proof.
  intros Hc H Hk.
  pose proof (consistent_run es w Hc) as Hc'.
  destruct (run_scanResult es w H) as [Hr _].
  unfold consistent in *.
  apply lookup_lt_is_Some. apply lookup_lt_is_Some in Hk.
  rewrite Hc', Hr, <- Hc. exact Hk.
Qed.

(** Between edits, what a render hands to the sections stays the form. *)
Lemma step_props (e : Event) (w : World) :
  form_edit e = false ->
  sectionProps (page w) = form (page w) ->
  sectionProps (page (step e w)) = form (page (step e w)).
Proof.
  intros He H. by_cases e; try discriminate; try assumption; reflexivity.
Qed.

Lemma run_props (es : list Event) (w : World) :
  Forall (fun e => form_edit e = false) es ->
  sectionProps (page w) = form (page w) ->
  sectionProps (page (run es w)) = form (page (run es w)).
Proof.
  intros H; revert w; induction H as [|e es He _ IH]; intros w Hw; [exact Hw|].
  rewrite run_cons. apply IH. now apply step_props.
Qed.

(** The last statement of each handler, whatever came before. *)
Lemma finally_isLoading (a : Action) (w : World) :
  isLoading (page ((a ;; onSubmit_finally) w)) = false.
Proof. reflexivity. Qed.

Lemma bp_finally_isLoading (a : Action) (w : World) :
  bp_isLoading (best ((a ;; bp_onSubmit_finally) w)) = false.
Proof. reflexivity. Qed.

Lemma remediation_finally_isLoading (k : nat) (a : Action) (w : World)
    (s : RemediationState) :
  sections (page ((a ;; onGetRemediation_finally k) w)) !! k = Some s ->
  rem_isLoading s = false.
Proof.
  unfold onGetRemediation_finally, setSectionLoading, on_section, on_page, seq.
  cbn. rewrite list_lookup_alter_eq.
  destruct (sections (page (a w)) !! k); cbn; [|discriminate].
  now intros [= <-].
Qed.

(** *** The remediation handler and the mounted sections *)

Lemma onGetRemediation_mounted (k : nat) (v : Vulnerability)
    (lang code_ : string) (i : Invocation) (w : World) :
  consistent w ->
  consistent (onGetRemediation k v lang code_ i w)
  /\ scanResult (page (onGetRemediation k v lang code_ i w))
     = scanResult (page w)
  /\ length (sections (page (onGetRemediation k v lang code_ i w)))
     = length (sections (page w)).
Proof.
  unfold consistent. intros Hc.
  destruct i; run_handlers;
    rewrite ?reconcile_id by (rewrite ?length_alter; exact Hc);
    rewrite ?length_alter; auto.
Qed.

Lemma onGetRemediation_settled_mounted (k : nat) (o : Settled string)
    (w : World) :
  consistent w ->
  consistent (onGetRemediation_settled k o w)
  /\ scanResult (page (onGetRemediation_settled k o w)) = scanResult (page w)
  /\ length (sections (page (onGetRemediation_settled k o w)))
     = length (sections (page w)).
Proof.
  unfold consistent. intros Hc.
  destruct o; run_handlers;
    rewrite ?reconcile_id by (rewrite ?length_alter; exact Hc);
    rewrite ?length_alter; auto.
Qed.

Lemma is_Some_length {A} (l1 l2 : list A) (k : nat) :
  length l1 = length l2 -> is_Some (l1 !! k) -> is_Some (l2 !! k).
Proof. intros H. rewrite !lookup_lt_is_Some. lia. Qed.

(** C6. After a completed invocation of the scan, the remediation or
    the best-practices handler, whatever the gateway call did (it
    raised at the call, or its promise was fulfilled or rejected after
    events in between), the workflow's isLoading flag is false.  For
    the scan and the best-practices handlers the events in between are
    arbitrary; for a remediation request they are any events but scan
    events, so that the section that made the request is still the one
    mounted at its index, and that section is then mounted with its
    flag false. *)
Theorem isLoading_false_after_invocation
    (i : Invocation) (between : list Event) (w : World) :
  (forall values o,
     isLoading (page (scan_invocation values i between o w)) = false)
  /\ (forall values o,
     bp_isLoading (best (bp_invocation values i between o w)) = false)
  /\ (forall k vulnerability lang code_ o,
     consistent w ->
     is_Some (sections (page w) !! k) ->
     Forall (fun e => scan_event e = false) between ->
     let w' :=
       remediation_invocation k vulnerability lang code_ i between o w in
     exists s, sections (page w') !! k = Some s /\ rem_isLoading s = false).
Proof.
  split; [|split].
  - intros values o. destruct i; reflexivity.
  - intros values o. destruct i; reflexivity.
  - intros k v lang code_ o Hc Hk Hb. cbv zeta.
    assert (Hm : is_Some
                   (sections
                      (page (remediation_invocation k v lang code_ i between
                               o w)) !! k)).
    { unfold remediation_invocation, completes, seq.
      destruct (onGetRemediation_mounted k v lang code_ i w Hc)
        as (Hc1 & _ & Hl1).
      apply (is_Some_length _ _ k (eq_sym Hl1)) in Hk.
      destruct i; [exact Hk|].
      pose proof (run_mounted k between _ Hc1 Hb Hk) as Hk2.
      pose proof (consistent_run between _ Hc1) as Hc2.
      destruct (onGetRemediation_settled_mounted k o _ Hc2) as (_ & _ & Hl3).
      exact (is_Some_length _ _ k (eq_sym Hl3) Hk2). }
    destruct Hm as [s Hs]. exists s. split; [exact Hs|].
    revert Hs. unfold remediation_invocation, completes.
    destruct i.
    + apply (remediation_finally_isLoading k
               (onGetRemediation_call k v lang code_ ;; onGetRemediation_catch ;; skip)).
    + apply (remediation_finally_isLoading k
               (onGetRemediation k v lang code_ Returns ;; run between ;;
                match o with
                | Fulfilled result => onGetRemediation_then k result
                | Rejected => onGetRemediation_catch
                end)).
Qed.

Lemma isLoading_false_after_invocation_witness :
  let v := {| description := "SQL injection"; severity := "High";
              location := "line 3"; recommendation := "Bind parameters";
              references := None |} in
  let values := {| language := "Python"; code := "cursor.execute(q % name)" |} in
  let w := run [SelectLanguage "Python"; TypeCode (code values);
                SubmitScan Returns;
                ScanSettled (Fulfilled {| vulnerabilities := [v] |})]
               initialWorld in
  isLoading (page (scan_invocation values Throws [] Rejected w)) = false
  /\ isLoading (page (scan_invocation values Returns [Rerender] Rejected w))
     = false
  /\ bp_isLoading
       (best (bp_invocation {| bp_language := "Go" |} Returns [Rerender]
                (Fulfilled "<ul></ul>") w)) = false
  /\ exists s,
       sections
         (page (remediation_invocation 0 v "Python" (code values)
                  Returns [Rerender; SubmitBestPractices Returns]
                  (Fulfilled "fix") w)) !! 0%nat = Some s
       /\ rem_isLoading s = false.
Proof.
  intros v values w.
  split; [apply (proj1 (isLoading_false_after_invocation Throws [] _))|].
  split; [apply (proj1 (isLoading_false_after_invocation Returns [Rerender] _))|].
  split;
    [apply (proj1 (proj2 (isLoading_false_after_invocation Returns [Rerender] _)))|].
  apply (proj2 (proj2 (isLoading_false_after_invocation Returns
                         [Rerender; SubmitBestPractices Returns] w))).
  - vm_compute; reflexivity.
  - eexists; vm_compute; reflexivity.
  - repeat constructor.
Defined.

(** The three cases on a page showing one finding: the remediation call
    raises, is rejected, or is fulfilled. *)
Example remediation_isLoading_three_outcomes :
  let v := {| description := "SQL injection"; severity := "High";
              location := "line 3"; recommendation := "Bind parameters";
              references := None |} in
  let w := onSubmit_settled (Fulfilled {| vulnerabilities := [v] |})
             initialWorld in
  forallb
    (fun io : Invocation * Settled string =>
       match sections
               (page (remediation_invocation 0 v "Python" "x" (fst io) []
                        (snd io) w)) !! 0%nat with
       | Some s => negb (rem_isLoading s)
       | None => false
       end)
    [(Throws, Rejected); (Returns, Rejected); (Returns, Fulfilled "fix")]
  = true.
Proof.
  vm_compute. reflexivity.
Qed.

(** *** The result card *)

Lemma onSubmit_settled_scanResult (r : ScanOutput) (w : World) :
  scanResult (page (onSubmit_settled (Fulfilled r) w)) = Some r.
Proof.
  unfold onSubmit_settled, onSubmit_then.
  destruct (Z.of_nat (length (vulnerabilities r)) =? 0); reflexivity.
Qed.

Lemma onSubmit_settled_toasts (r : ScanOutput) (w : World) :
  toasts (onSubmit_settled (Fulfilled r) w) =
    match vulnerabilities r with
    | [] => toasts w ++ [toast_no_vulnerabilities]
    | _ => toasts w
    end.
Proof.
  unfold onSubmit_settled, onSubmit_then.
  destruct (vulnerabilities r); reflexivity.
Qed.

Lemma render_panels_result (r : ScanOutput) (w : World) :
  scanResult (page w) = Some r ->
  render_panels w = imap render_panel (vulnerabilities r).
Proof.
  intros H. unfold render_panels. rewrite H.
  destruct (vulnerabilities r); reflexivity.
Qed.

(** The badge [getBadgeVariant] computes is the one the rule gives. *)
Lemma getBadgeVariant_classified (sev : string) :
  classified_by_rule sev (getBadgeVariant sev).
Proof.
  unfold classified_by_rule, getBadgeVariant. cbv zeta.
  pose proof (includes_lower_ci sev "high" eq_refl) as Hh.
  pose proof (includes_lower_ci sev "critical" eq_refl) as Hc.
  pose proof (includes_lower_ci sev "medium" eq_refl) as Hm.
  pose proof (includes_lower_ci sev "low" eq_refl) as Hl.
  destruct (JS.includes (JS.toLowerCase sev) "high");
    destruct (JS.includes (JS.toLowerCase sev) "critical");
    destruct (JS.includes (JS.toLowerCase sev) "medium");
    destruct (JS.includes (JS.toLowerCase sev) "low");
    cbn [orb]; repeat split; intros; try reflexivity; exfalso;
    intuition congruence.
Qed.

(** C8. After a successful scan with no finding, the success toast (not
    a destructive one) has been published and no panel is rendered;
    after one with N >= 1 findings no toast is published and exactly N
    panels are rendered, in the order returned: the k-th panel shows
    the k-th finding, and its badge is the one the severity-to-badge
    rule gives that finding's severity (destructive when it contains
    high or critical, else secondary when it contains medium, else
    outline when it contains low, else default, letter case apart). *)
Theorem scan_success_rendering (r : ScanOutput) (w : World) :
  let w' := onSubmit_settled (Fulfilled r) w in
  (vulnerabilities r = [] ->
     toasts w' = toasts w ++ [toast_no_vulnerabilities]
     /\ variant toast_no_vulnerabilities = variant_default
     /\ render_panels w' = [])
  /\ (vulnerabilities r <> [] ->
     toasts w' = toasts w
     /\ length (render_panels w') = length (vulnerabilities r)
     /\ panel_description <$> render_panels w'
        = description <$> vulnerabilities r
     /\ forall k vuln,
          vulnerabilities r !! k = Some vuln ->
          exists p,
            render_panels w' !! k = Some p
            /\ panel_index p = k
            /\ panel_description p = description vuln
            /\ panel_severity p = severity vuln
            /\ classified_by_rule (severity vuln) (panel_badge p)).
Proof.
  cbv zeta.
  pose proof (onSubmit_settled_scanResult r w) as Hr.
  pose proof (render_panels_result r _ Hr) as Hp.
  rewrite Hp, onSubmit_settled_toasts.
  split; intros Hv.
  - rewrite Hv. repeat split.
  - split; [destruct (vulnerabilities r); [contradiction | reflexivity]|].
    split; [apply length_imap|].
    split.
    { apply list_eq. intros k.
      rewrite !list_lookup_fmap, list_lookup_imap.
      destruct (vulnerabilities r !! k); reflexivity. }
    intros k vuln Hk. exists (render_panel k vuln).
    rewrite list_lookup_imap, Hk.
    split; [reflexivity|]. split; [reflexivity|]. split; [reflexivity|].
    split; [reflexivity|]. apply getBadgeVariant_classified.
Qed.

Lemma scan_success_rendering_witness :
  let v1 := {| description := "SQL injection"; severity := "HIGH";
               location := "line 3"; recommendation := "Bind parameters";
               references := None |} in
  let v2 := {| description := "Verbose errors"; severity := "low";
               location := "line 9"; recommendation := "Log, do not echo";
               references := Some ["https://owasp.org"] |} in
  let none := step (ScanSettled (Fulfilled {| vulnerabilities := [] |}))
                initialWorld in
  let two := step (ScanSettled (Fulfilled {| vulnerabilities := [v1; v2] |}))
               initialWorld in
  (toasts none = toasts initialWorld ++ [toast_no_vulnerabilities]
   /\ variant toast_no_vulnerabilities = variant_default
   /\ render_panels none = [])
  /\ length (render_panels two) = 2%nat
  /\ exists p,
       render_panels two !! 1%nat = Some p
       /\ panel_index p = 1%nat
       /\ panel_description p = "Verbose errors"
       /\ panel_severity p = "low"
       /\ classified_by_rule "low" (panel_badge p).
Proof.
  intros v1 v2 none two. split; [|split].
  - apply (proj1 (scan_success_rendering {| vulnerabilities := [] |}
                    initialWorld)).
    reflexivity.
  - refine (proj1 (proj2 (proj2 (scan_success_rendering
                                   {| vulnerabilities := [v1; v2] |}
                                   initialWorld) _))).
    discriminate.
  - refine (proj2 (proj2 (proj2 (proj2 (scan_success_rendering
                                   {| vulnerabilities := [v1; v2] |}
                                   initialWorld) _))) 1%nat v2 _).
    + discriminate.
    + reflexivity.
Defined.

(** An empty result and a result of two findings, on the first render. *)
Example scan_success_rendering_samples :
  let v1 := {| description := "SQL injection"; severity := "HIGH";
               location := "line 3"; recommendation := "Bind parameters";
               references := None |} in
  let v2 := {| description := "Verbose errors"; severity := "low";
               location := "line 9"; recommendation := "Log, do not echo";
               references := Some ["https://owasp.org"] |} in
  let none := onSubmit_settled (Fulfilled {| vulnerabilities := [] |})
                initialWorld in
  let two := onSubmit_settled (Fulfilled {| vulnerabilities := [v1; v2] |})
               initialWorld in
  toasts none = [toast_no_vulnerabilities]
  /\ render_panels none = []
  /\ toasts two = []
  /\ panel_description <$> render_panels two
     = ["SQL injection"; "Verbose errors"]
  /\ panel_badge <$> render_panels two = [destructive; outline].
Proof. repeat split. Qed.

(** *** One section's request, step by step *)

Lemma remediation_event_inv (k : nat) (e : Event) :
  remediation_event k e = true ->
  (exists i, e = ClickSuggestFix k i) \/ (exists o, e = RemediationSettled k o).
Proof.
  destruct e; cbn; try discriminate; intros H;
    apply bool_decide_eq_true in H; subst; eauto.
Qed.

(** Events of the section at [a] leave the section at [b] as it is. *)
Lemma step_other_section (a b : nat) (e : Event) (w : World) :
  a <> b ->
  consistent w ->
  remediation_event a e = true ->
  sections (page (step e w)) !! b = sections (page w) !! b.
Proof.
  unfold consistent. intros Hab Hc He.
  destruct (remediation_event_inv a e He) as [[i ->] | [o ->]].
  - unfold step, onClick_suggestFix. destruct i; break_match;
      try reflexivity; run_handlers;
      rewrite ?reconcile_id by (rewrite ?length_alter; exact Hc);
      now rewrite !list_lookup_alter_ne by assumption.
  - unfold step. destruct o; run_handlers;
      rewrite ?reconcile_id by (rewrite ?length_alter; exact Hc);
      now rewrite !list_lookup_alter_ne by assumption.
Qed.

(** A click on an idle section with a finding clears its suggestion; the
    loading flag is set while the call is pending and is down again when
    the call raised. *)
Lemma click_section (k : nat) (i : Invocation) (s : RemediationState)
    (w : World) :
  consistent w ->
  sections (page w) !! k = Some s ->
  rem_isLoading s = false ->
  is_Some (finding w k) ->
  sections (page (step (ClickSuggestFix k i) w)) !! k =
    Some {| rem_isLoading := match i with Throws => false | Returns => true end;
            suggestion := None |}.
Proof.
  unfold consistent. intros Hc Hs Hl [v Hv]. unfold step, onClick_suggestFix.
  rewrite Hs, Hv, Hl. destruct i; run_handlers;
    rewrite ?reconcile_id by (rewrite ?length_alter; exact Hc);
    now rewrite !list_lookup_alter_eq, Hs.
Qed.

(** The settled request writes its own section: the flag falls, and a
    fulfilled request sets the suggestion. *)
Lemma settled_section (k : nat) (o : Settled string) (w : World) :
  consistent w ->
  sections (page (step (RemediationSettled k o) w)) !! k =
    (fun s => {| rem_isLoading := false;
                 suggestion := match o with
                               | Fulfilled r => Some r
                               | Rejected => suggestion s
                               end |}) <$> sections (page w) !! k.
Proof.
  unfold consistent. intros Hc. unfold step.
  destruct o; run_handlers;
    rewrite ?reconcile_id by (rewrite ?length_alter; exact Hc);
    rewrite !list_lookup_alter_eq;
    now destruct (sections (page w) !! k).
Qed.

Lemma step_finding (k : nat) (e : Event) (w : World) :
  scan_event e = false -> finding (step e w) k = finding w k.
Proof.
  intros H. unfold finding. now destruct (step_scanResult e w H) as [-> _].
Qed.

(** Two requests pending at once, settled in the order given by [first]. *)
Lemma two_requests (a b : nat) (oa ob : Settled string)
    (sa sb : RemediationState) (w : World) :
  a <> b ->
  consistent w ->
  sections (page w) !! a = Some sa -> rem_isLoading sa = false ->
  sections (page w) !! b = Some sb -> rem_isLoading sb = false ->
  is_Some (finding w a) -> is_Some (finding w b) ->
  let pending :=
    run [ClickSuggestFix a Returns; ClickSuggestFix b Returns] w in
  let done := run [RemediationSettled a oa; RemediationSettled b ob] pending in
  sections (page pending) !! a
    = Some {| rem_isLoading := true; suggestion := None |}
  /\ sections (page pending) !! b
    = Some {| rem_isLoading := true; suggestion := None |}
  /\ sections (page done) !! a = Some (shown oa)
  /\ sections (page done) !! b = Some (shown ob).
Proof.
  intros Hab Hc Ha Hla Hb Hlb Hfa Hfb. cbv zeta. unfold run. cbn [fold_left].
  set (w1 := step (ClickSuggestFix a Returns) w).
  set (w2 := step (ClickSuggestFix b Returns) w1).
  set (w3 := step (RemediationSettled a oa) w2).
  assert (Hc1 : consistent w1) by now apply consistent_step.
  assert (Hc2 : consistent w2) by now apply consistent_step.
  assert (Hc3 : consistent w3) by now apply consistent_step.
  assert (H1a : sections (page w1) !! a
                = Some {| rem_isLoading := true; suggestion := None |})
    by now apply (click_section a Returns sa).
  assert (H1b : sections (page w1) !! b = Some sb).
  { unfold w1. rewrite (step_other_section a b) by (cbn; auto using bool_decide_eq_true_2).
    exact Hb. }
  assert (H2b : sections (page w2) !! b
                = Some {| rem_isLoading := true; suggestion := None |}).
  { apply (click_section b Returns sb); auto.
    unfold w1. now rewrite step_finding. }
  assert (H2a : sections (page w2) !! a
                = Some {| rem_isLoading := true; suggestion := None |}).
  { unfold w2. rewrite (step_other_section b a) by (cbn; auto using bool_decide_eq_true_2).
    exact H1a. }
  assert (H3a : sections (page w3) !! a = Some (shown oa)).
  { unfold w3. rewrite settled_section, H2a by assumption. now destruct oa. }
  assert (H3b : sections (page w3) !! b
                = Some {| rem_isLoading := true; suggestion := None |}).
  { unfold w3. rewrite (step_other_section a b) by (cbn; auto using bool_decide_eq_true_2).
    exact H2b. }
  repeat split; try assumption.
  - rewrite (step_other_section b a) by (cbn; auto using bool_decide_eq_true_2).
    exact H3a.
  - rewrite settled_section, H3b by assumption. now destruct ob.
Qed.

(** C9. For two distinct findings A and B, every event of A's
    remediation (the click and the settlement, whatever the outcome)
    leaves B's section, its loading flag and its suggestion, as it was;
    and when both requests are pending at once, in whichever order they
    settle, each section ends up showing the outcome of its own request. *)
Theorem remediation_sections_independent (a b : nat) (w : World) :
  a <> b ->
  consistent w ->
  (forall e, remediation_event a e = true ->
     sections (page (step e w)) !! b = sections (page w) !! b)
  /\ (forall sa sb oa ob,
     sections (page w) !! a = Some sa -> rem_isLoading sa = false ->
     sections (page w) !! b = Some sb -> rem_isLoading sb = false ->
     is_Some (finding w a) -> is_Some (finding w b) ->
     let a_first :=
       run [ClickSuggestFix a Returns; ClickSuggestFix b Returns;
            RemediationSettled a oa; RemediationSettled b ob] w in
     let b_first :=
       run [ClickSuggestFix a Returns; ClickSuggestFix b Returns;
            RemediationSettled b ob; RemediationSettled a oa] w in
     sections (page a_first) !! a = Some (shown oa)
     /\ sections (page a_first) !! b = Some (shown ob)
     /\ sections (page b_first) !! a = Some (shown oa)
     /\ sections (page b_first) !! b = Some (shown ob)).
Proof.
  intros Hab Hc. split.
  - intros e He. now apply step_other_section with (a := a).
  - intros sa sb oa ob Ha Hla Hb Hlb Hfa Hfb. cbv zeta.
    destruct (two_requests a b oa ob sa sb w Hab Hc Ha Hla Hb Hlb Hfa Hfb)
      as (_ & _ & H1 & H2).
    split; [exact H1|]. split; [exact H2|].
    (* the other order: the same run with the two clicks commuted *)
    assert (Hba : b <> a) by congruence.
    destruct (two_requests a b oa ob sa sb w Hab Hc Ha Hla Hb Hlb Hfa Hfb)
      as (Hpa & Hpb & _ & _).
    unfold run in *. cbn [fold_left] in *.
    set (p := step (ClickSuggestFix b Returns)
                (step (ClickSuggestFix a Returns) w)) in *.
    assert (Hcp : consistent p) by now do 2 apply consistent_step.
    set (w3 := step (RemediationSettled b ob) p).
    assert (Hc3 : consistent w3) by now apply consistent_step.
    assert (H3b : sections (page w3) !! b = Some (shown ob)).
    { unfold w3. rewrite settled_section, Hpb by assumption. now destruct ob. }
    assert (H3a : sections (page w3) !! a
                  = Some {| rem_isLoading := true; suggestion := None |}).
    { unfold w3.
      rewrite (step_other_section b a) by (cbn; auto using bool_decide_eq_true_2).
      exact Hpa. }
    split.
    + rewrite settled_section, H3a by assumption. now destruct oa.
    + rewrite (step_other_section a b) by (cbn; auto using bool_decide_eq_true_2).
      exact H3b.
Qed.

Lemma remediation_sections_independent_witness :
  let v1 := {| description := "SQL injection"; severity := "High";
               location := "line 3"; recommendation := "Bind parameters";
               references := None |} in
  let v2 := {| description := "Weak hash"; severity := "Medium";
               location := "line 9"; recommendation := "Use SHA-256";
               references := Some ["https://owasp.org"] |} in
  let w := onSubmit_settled (Fulfilled {| vulnerabilities := [v1; v2] |})
             initialWorld in
  let a_first :=
    run [ClickSuggestFix 0 Returns; ClickSuggestFix 1 Returns;
         RemediationSettled 0 (Fulfilled "fix A"); RemediationSettled 1 Rejected]
        w in
  let b_first :=
    run [ClickSuggestFix 0 Returns; ClickSuggestFix 1 Returns;
         RemediationSettled 1 Rejected; RemediationSettled 0 (Fulfilled "fix A")]
        w in
  sections (page a_first) !! 0%nat = Some (shown (Fulfilled "fix A"))
  /\ sections (page a_first) !! 1%nat = Some (shown Rejected)
  /\ sections (page b_first) !! 0%nat = Some (shown (Fulfilled "fix A"))
  /\ sections (page b_first) !! 1%nat = Some (shown Rejected).
Proof.
  cbv zeta.
  refine (proj2 (remediation_sections_independent 0 1 _ _ _)
            initialRemediation initialRemediation (Fulfilled "fix A") Rejected
            _ _ _ _ _ _).
  - discriminate.
  - reflexivity.
  - reflexivity.
  - reflexivity.
  - reflexivity.
  - reflexivity.
  - eexists; reflexivity.
  - eexists; reflexivity.
Defined.

(** *** Failures *)



Lemma handleSubmit_scan_valid (i : Invocation) (w : World) :
  formSchema (form (page w)) = [] ->
  handleSubmit_scan i w
  = (setFormErrors noErrors ;; onSubmit (form (page w)) i) w.
Proof. intros H. unfold handleSubmit_scan. now rewrite H. Qed.






(** *** What a remediation request sends *)

(** A settled scan ends with a render: the sections' props are the
    form's values of that moment. *)
Lemma scan_settled_props (o : Settled ScanOutput) (w : World) :
  sectionProps (page (step (ScanSettled o) w))
  = form (page (step (ScanSettled o) w)).
Proof.
  unfold step, onSubmit_settled, onSubmit_then.
  destruct o; break_match; reflexivity.
Qed.

Lemma click_gateway (k : nat) (i : Invocation) (s : RemediationState)
    (v : Vulnerability) (w : World) :
  sections (page w) !! k = Some s ->
  rem_isLoading s = false ->
  finding w k = Some v ->
  gateway (step (ClickSuggestFix k i) w) =
    gateway w ++ [handleRemediation (code (sectionProps (page w)))
                    (description v) (language (sectionProps (page w)))].
Proof.
  intros Hs Hl Hv. unfold step, onClick_suggestFix.
  rewrite Hs, Hv, Hl. destruct i; reflexivity.
Qed.

(** C1, as stated, fails: after the scan was submitted the user edits
    the code field (once the result is shown, or while the scan is still
    pending, there together with the language), and the remediation
    request of a finding of that scan carries the edited values, not the
    submitted ones. *)
Lemma remediation_sends_edited_form :
  let v := {| description := "SQL injection"; severity := "High";
              location := "line 3"; recommendation := "Bind parameters";
              references := None |} in
  let submitted :=
    {| language := "Python"; code := "cursor.execute(q % name)" |} in
  let edited := "cursor.execute(q, (name,))" in
  let after_result :=
    run [SelectLanguage "Python"; TypeCode (code submitted);
         SubmitScan Returns;
         ScanSettled (Fulfilled {| vulnerabilities := [v] |});
         TypeCode edited;
         ClickSuggestFix 0 Returns]
        initialWorld in
  let while_pending :=
    run [SelectLanguage "Python"; TypeCode (code submitted);
         SubmitScan Returns;
         TypeCode edited; SelectLanguage "Java";
         ScanSettled (Fulfilled {| vulnerabilities := [v] |});
         ClickSuggestFix 0 Returns]
        initialWorld in
  gateway after_result =
    [handleVulnerabilityScan submitted;
     handleRemediation edited "SQL injection" "Python"]
  /\ gateway while_pending =
    [handleVulnerabilityScan submitted;
     handleRemediation edited "SQL injection" "Java"]
  /\ edited <> code submitted
  /\ "Java" <> language submitted.
Proof. cbv zeta. repeat split; try discriminate; vm_compute; reflexivity. Qed.

(** C1, amended. A remediation request of a finding of the current scan
    result sends the finding's description with the language and code
    that the page's latest render read from the scan form; in every
    world the page can reach that code is the form's current code.  They
    are the language and code of the submitted scan request when no
    field of the form was edited after the submission. *)
Theorem remediation_sends_rendered_form
    (k : nat) (i : Invocation) (s : RemediationState) (v : Vulnerability)
    (w : World) :
  sections (page w) !! k = Some s ->
  rem_isLoading s = false ->
  finding w k = Some v ->
  gateway (step (ClickSuggestFix k i) w) =
    gateway w ++ [handleRemediation (code (sectionProps (page w)))
                    (description v) (language (sectionProps (page w)))]
  /\ (reachable w -> code (sectionProps (page w)) = code (form (page w)))
  /\ (forall w0 r pending shown_,
      isLoading (page w0) = false ->
      formSchema (form (page w0)) = [] ->
      Forall (fun e => form_edit e = false) (pending ++ shown_) ->
      w = run ([SubmitScan Returns] ++ pending
               ++ [ScanSettled (Fulfilled r)] ++ shown_) w0 ->
      gateway (step (SubmitScan Returns) w0) =
        gateway w0 ++ [handleVulnerabilityScan (form (page w0))]
      /\ gateway (step (ClickSuggestFix k i) w) =
        gateway w ++ [handleRemediation (code (form (page w0)))
                        (description v) (language (form (page w0)))]).
Proof.
  intros Hs Hl Hv.
  pose proof (click_gateway k i s v w Hs Hl Hv) as Hcall.
  split; [exact Hcall|]. split; [apply reachable_code_prop|].
  intros w0 r pending shown_ Hload Hvalid Hedits Hw.
  apply Forall_app in Hedits as [Hp Hsh].
  split.
  - cbn [step]. rewrite Hload, handleSubmit_scan_gateway, Hvalid. reflexivity.
  - rewrite Hcall. do 3 f_equal.
    + rewrite Hw, !run_app.
      rewrite run_props by (try exact Hsh; apply scan_settled_props).
      rewrite run_form by exact Hsh.
      cbn [run fold_left]. rewrite step_form by reflexivity.
      rewrite run_form by exact Hp. now rewrite step_form.
    + rewrite Hw, !run_app.
      rewrite run_props by (try exact Hsh; apply scan_settled_props).
      rewrite run_form by exact Hsh.
      cbn [run fold_left]. rewrite step_form by reflexivity.
      rewrite run_form by exact Hp. now rewrite step_form.
Qed.

Lemma remediation_sends_rendered_form_witness :
  let v := {| description := "SQL injection"; severity := "High";
              location := "line 3"; recommendation := "Bind parameters";
              references := None |} in
  let w0 := run [SelectLanguage "Python"; TypeCode "cursor.execute(q % name)"]
                initialWorld in
  let w := run ([SubmitScan Returns] ++ [Rerender]
                ++ [ScanSettled (Fulfilled {| vulnerabilities := [v] |})]
                ++ [SelectBestPracticesLanguage "Go"; SubmitBestPractices Throws])
               w0 in
  gateway (step (ClickSuggestFix 0 Returns) w) =
    gateway w ++ [handleRemediation "cursor.execute(q % name)"
                    "SQL injection" "Python"].
Proof.
  cbv zeta.
  match goal with
  | |- gateway (step _ ?w) = _ =>
      destruct (remediation_sends_rendered_form 0 Returns initialRemediation
                  {| description := "SQL injection"; severity := "High";
                     location := "line 3"; recommendation := "Bind parameters";
                     references := None |}
                  w)
        as (_ & _ & H);
      [vm_compute; reflexivity | reflexivity | vm_compute; reflexivity |]
  end.
  refine (proj2 (H (run [SelectLanguage "Python";
                         TypeCode "cursor.execute(q % name)"] initialWorld)
                   _ [Rerender]
                   [SelectBestPracticesLanguage "Go"; SubmitBestPractices Throws]
                   _ _ _ _)).
  - reflexivity.
  - vm_compute; reflexivity.
  - repeat constructor.
  - reflexivity.
Defined.

(** * Further properties of the page *)

(** *** The gateway log, event by event *)

Lemma step_gateway (e : Event) (w : World) :
  gateway (step e w) = gateway w ++ issued e w.
Proof.
  unfold issued.
  by_cases e; rewrite ?app_nil_r; try reflexivity; try congruence.
Qed.

Lemma issued_length (e : Event) (w : World) :
  (length (issued e w) <= if requesting e then 1 else 0)%nat.
Proof.
  destruct e; cbn; try lia; break_match; cbn; lia.
Qed.

(** X2. The gateway log only grows, and only by requests: after any run of
    events the earlier log is a prefix of the log, and the calls added
    are at most as many as the submits and Suggest-a-Fix clicks of the
    run.  No settlement, failed or fulfilled, calls the gateway again. *)
Theorem gateway_log_grows_by_requests (es : list Event) (w : World) :
  exists calls,
    gateway (run es w) = gateway w ++ calls
    /\ (length calls <= length (filter (fun e => requesting e = true) es))%nat.
Proof.
  revert w; induction es as [|e es IH]; intros w.
  - exists []. cbn. split; [now rewrite app_nil_r | lia].
  - rewrite run_cons. destruct (IH (step e w)) as (calls & Hc & Hl).
    exists (issued e w ++ calls). rewrite Hc, step_gateway, app_assoc.
    split; [reflexivity|].
    rewrite length_app. pose proof (issued_length e w) as Hi.
    rewrite filter_cons. destruct (requesting e); cbn.
    + destruct (decide (true = true)); [cbn; lia | congruence].
    + destruct (decide (false = true)); [congruence | lia].
Qed.

(** *** Languages come from the Select *)

Lemma supported_nonempty (lang : string) :
  lang ∈ supportedLanguages -> lang <> "".
Proof.
  intros H ->. apply list_elem_of_In in H. cbn in H.
  repeat (destruct H as [H|H]; [discriminate|]). exact H.
Qed.

Lemma selectable_nonempty (lang : string) :
  selectable lang -> lang <> "" -> lang ∈ supportedLanguages.
Proof. intros [->|H] Hne; [congruence | exact H]. Qed.

Lemma bestPracticesFormSchema_valid (values : BestPracticesValues) :
  bestPracticesFormSchema values = [] -> bp_language values <> "".
Proof.
  unfold bestPracticesFormSchema. rewrite string_at_min.
  destruct (JS.length (bp_language values) <? 1) eqn:E; [discriminate|].
  intros _. now apply length_lt_1_false.
Qed.

Lemma step_languages (e : Event) (w : World) :
  languages_selectable w -> languages_selectable (step e w).
Proof.
  unfold languages_selectable. intros (H1 & H2 & H3).
  by_cases e; repeat split; try assumption;
    right; now apply bool_decide_eq_true in Heqb.
Qed.

Lemma issued_validated (e : Event) (w : World) :
  languages_selectable w -> Forall call_validated (issued e w).
Proof.
  intros (H1 & H2 & H3).
  destruct e; cbn [issued]; try constructor; break_match;
    try constructor; try (constructor; fail); cbn [call_validated].
  - apply formSchema_valid_iff in Heql as [Hne Hb].
    split; [now apply selectable_nonempty | exact Hb].
  - exact H2.
  - apply selectable_nonempty; [exact H3|].
    now apply bestPracticesFormSchema_valid.
Qed.

Lemma run_validated (es : list Event) (w : World) :
  languages_selectable w ->
  Forall call_validated (gateway w) ->
  languages_selectable (run es w) /\ Forall call_validated (gateway (run es w)).
Proof.
  revert w; induction es as [|e es IH]; intros w Hl Hg; [now split|].
  rewrite run_cons. apply IH; [now apply step_languages|].
  rewrite step_gateway. apply Forall_app. split; [exact Hg|].
  now apply issued_validated.
Qed.

(** X1. Whatever the user does, every scan request the page has sent names
    a supported language and carries a code of 20 to 8000 characters,
    every best-practices request names a supported language, and every
    remediation request names a supported language or none: the schemas
    check that a language is chosen, the Select controls offer nothing
    but the supported ones. *)
Theorem reachable_calls_validated (w : World) :
  reachable w -> Forall call_validated (gateway w).
Proof.
  intros [es ->]. apply run_validated.
  - repeat split; now left.
  - constructor.
Qed.

Lemma reachable_calls_validated_witness :
  Forall call_validated
    (gateway
       (run [SelectLanguage "Cobol"; SelectLanguage "Go";
             TypeCode "http.ListenAndServe(addr, nil)"; SubmitScan Returns;
             SelectBestPracticesLanguage "Rust"; SubmitBestPractices Returns]
            initialWorld)).
Proof.
  apply reachable_calls_validated. eexists. reflexivity.
Defined.

(** *** One request at a time *)

Lemma step_scan_pending (e : Event) (w : World) :
  is_scan_settled e = false ->
  isLoading (page w) = true ->
  isLoading (page (step e w)) = true
  /\ List.filter is_scan_call (issued e w) = [].
Proof.
  intros He Hl. split.
  - destruct e; try discriminate;
      try (match goal with
           | |- isLoading (page (step ?e w)) = _ =>
               destruct (step_scanResult e w eq_refl) as [_ ->]
           end; exact Hl).
    cbn [step]. now rewrite Hl.
  - destruct e; cbn [issued]; try reflexivity; [now rewrite Hl | |];
      break_match; reflexivity.
Qed.

(** X3. While a scan is pending, that is from an accepted submit until the
    promise settles, the page sends no further scan request, whatever
    else happens: the submit button is disabled by [isLoading]. *)
Theorem scan_requests_serialised (es : list Event) (w : World) :
  isLoading (page w) = true ->
  Forall (fun e => is_scan_settled e = false) es ->
  isLoading (page (run es w)) = true
  /\ List.filter is_scan_call (gateway (run es w))
     = List.filter is_scan_call (gateway w).
Proof.
  intros Hl H; revert w Hl.
  induction H as [|e es He _ IH]; intros w Hl; [now split|].
  rewrite run_cons.
  destruct (step_scan_pending e w He Hl) as [Hl' Hi].
  destruct (IH _ Hl') as [-> ->]. split; [reflexivity|].
  now rewrite step_gateway, List.filter_app, Hi, app_nil_r.
Qed.

Lemma scan_requests_serialised_witness :
  let w := run [SelectLanguage "Go"; TypeCode "http.ListenAndServe(addr, nil)";
                SubmitScan Returns] initialWorld in
  let busy := run [SubmitScan Returns; TypeCode "exec.Command(userInput).Run()";
                   SubmitScan Throws; Rerender; SubmitScan Returns] w in
  isLoading (page busy) = true
  /\ List.filter is_scan_call (gateway busy)
     = [handleVulnerabilityScan
          {| language := "Go"; code := "http.ListenAndServe(addr, nil)" |}].
Proof.
  cbv zeta.
  refine (scan_requests_serialised
            [SubmitScan Returns; TypeCode "exec.Command(userInput).Run()";
             SubmitScan Throws; Rerender; SubmitScan Returns] _ _ _).
  - reflexivity.
  - repeat constructor.
Defined.

Lemma step_bp_pending (e : Event) (w : World) :
  is_bp_settled e = false ->
  bp_isLoading (best w) = true ->
  bp_isLoading (best (step e w)) = true
  /\ List.filter is_bp_call (issued e w) = [].
Proof.
  intros He Hl. split.
  - destruct e; try discriminate;
      try (match goal with
           | |- bp_isLoading (best (step ?e w)) = _ =>
               destruct (step_bestPractices e w eq_refl) as [_ ->]
           end; exact Hl).
    cbn [step]. now rewrite Hl.
  - destruct e; cbn [issued]; try reflexivity; [| |now rewrite Hl];
      break_match; reflexivity.
Qed.

(** X4. While a best-practices request is pending the section sends no
    further one: its submit button is disabled by its own [isLoading]. *)
Theorem bp_requests_serialised (es : list Event) (w : World) :
  bp_isLoading (best w) = true ->
  Forall (fun e => is_bp_settled e = false) es ->
  bp_isLoading (best (run es w)) = true
  /\ List.filter is_bp_call (gateway (run es w))
     = List.filter is_bp_call (gateway w).
Proof.
  intros Hl H; revert w Hl.
  induction H as [|e es He _ IH]; intros w Hl; [now split|].
  rewrite run_cons.
  destruct (step_bp_pending e w He Hl) as [Hl' Hi].
  destruct (IH _ Hl') as [-> ->]. split; [reflexivity|].
  now rewrite step_gateway, List.filter_app, Hi, app_nil_r.
Qed.

Lemma bp_requests_serialised_witness :
  let w := run [SelectBestPracticesLanguage "Rust"; SubmitBestPractices Returns]
               initialWorld in
  let busy := run [SubmitBestPractices Returns;
                   SelectBestPracticesLanguage "Go";
                   SubmitBestPractices Returns] w in
  bp_isLoading (best busy) = true
  /\ List.filter is_bp_call (gateway busy)
     = [handleBestPractices {| bp_language := "Rust" |}].
Proof.
  cbv zeta.
  refine (bp_requests_serialised
            [SubmitBestPractices Returns; SelectBestPracticesLanguage "Go";
             SubmitBestPractices Returns] _ _ _).
  - reflexivity.
  - repeat constructor.
Defined.

Lemma step_section_pending (k : nat) (e : Event) (s : RemediationState)
    (w : World) :
  consistent w ->
  scan_event e = false ->
  settles_section k e = false ->
  sections (page w) !! k = Some s ->
  rem_isLoading s = true ->
  sections (page (step e w)) !! k = Some s.
Proof.
  intros Hc Hs Hk Hw Hl.
  destruct (remediation_event k e) eqn:Hr.
  - destruct (remediation_event_inv k e Hr) as [[i ->] | [o ->]].
    + unfold step, onClick_suggestFix. rewrite Hw.
      destruct (finding w k); [rewrite Hl|]; exact Hw.
    + cbn in Hk. rewrite bool_decide_eq_false in Hk. congruence.
  - now rewrite step_section.
Qed.

(** X5. While the request of one finding is pending, clicks on its Suggest
    a Fix button do nothing and no event of another finding or of
    another workflow touches its section: until the request settles or
    a scan event replaces the result, the section stays as it is. *)
Theorem section_request_serialised (k : nat) (s : RemediationState)
    (es : list Event) (w : World) :
  consistent w ->
  sections (page w) !! k = Some s ->
  rem_isLoading s = true ->
  Forall (fun e => scan_event e = false /\ settles_section k e = false) es ->
  sections (page (run es w)) !! k = Some s.
Proof.
  intros Hc Hw Hl H; revert w Hc Hw.
  induction H as [|e es [He1 He2] _ IH]; intros w Hc Hw; [exact Hw|].
  rewrite run_cons. apply IH; [now apply consistent_step|].
  now apply (step_section_pending k e s w).
Qed.

Lemma section_request_serialised_witness :
  let v := {| description := "SQL injection"; severity := "High";
              location := "line 3"; recommendation := "Bind parameters";
              references := None |} in
  let w := run [SelectLanguage "Python"; TypeCode "cursor.execute(q % name)";
                SubmitScan Returns;
                ScanSettled (Fulfilled {| vulnerabilities := [v; v] |});
                ClickSuggestFix 0 Returns] initialWorld in
  let busy := run [ClickSuggestFix 0 Returns; ClickSuggestFix 1 Returns;
                   ClickSuggestFix 0 Throws;
                   RemediationSettled 1 (Fulfilled "fix B")] w in
  sections (page busy) !! 0%nat
    = Some {| rem_isLoading := true; suggestion := None |}
  /\ length (gateway busy) = 3%nat.
Proof.
  cbv zeta. split; [|reflexivity].
  refine (section_request_serialised 0 _
            [ClickSuggestFix 0 Returns; ClickSuggestFix 1 Returns;
             ClickSuggestFix 0 Throws; RemediationSettled 1 (Fulfilled "fix B")]
            _ _ _ _ _).
  - reflexivity.
  - reflexivity.
  - reflexivity.
  - repeat constructor.
Defined.

(** *** Clear Code and Upload File *)

Lemma length_0_empty (s : string) : (JS.length s =? 0) = true -> s = "".
Proof.
  destruct s; [reflexivity|]. unfold JS.length. cbn [String.length].
  intros H. apply Z.eqb_eq in H. lia.
Qed.

(** X6. Clear Code empties the code field and nothing else: the language,
    the result, the toasts and the gateway log stay; afterwards the
    button is disabled, and a submit right after it never reaches the
    gateway (the scan is pending, or the empty code is too short). *)
Theorem clear_code_then_submit (i : Invocation) (w : World) :
  let w1 := step ClickClearCode w in
  language (form (page w1)) = language (form (page w))
  /\ scanResult (page w1) = scanResult (page w)
  /\ toasts w1 = toasts w
  /\ gateway w1 = gateway w
  /\ (clearCode_disabled w = false -> code (form (page w1)) = "")
  /\ clearCode_disabled w1 = true
  /\ gateway (step (SubmitScan i) w1) = gateway w.
Proof.
  cbv zeta. cbn [step]. unfold onClick_clearCode.
  destruct (clearCode_disabled w) eqn:Hd.
  - split; [reflexivity|]. split; [reflexivity|]. split; [reflexivity|].
    split; [reflexivity|]. split; [discriminate|]. split; [exact Hd|].
    unfold clearCode_disabled in Hd.
    destruct (isLoading (page w)) eqn:Hl; [reflexivity|].
    cbn in Hd. apply length_0_empty in Hd.
    rewrite handleSubmit_scan_gateway, formSchema_cases, Hd.
    destruct (JS.length (language (form (page w))) <? 1); reflexivity.
  - split; [reflexivity|]. split; [reflexivity|]. split; [reflexivity|].
    split; [reflexivity|]. split; [reflexivity|].
    unfold clearCode_disabled in *.
    destruct (isLoading (page w)) eqn:Hl; [discriminate|].
    change (isLoading (page (setValue_code "" w))) with (isLoading (page w)).
    rewrite Hl. split; [reflexivity|].
    rewrite handleSubmit_scan_gateway, formSchema_cases. cbn.
    destruct (JS.length (language (form (page w))) <? 1); reflexivity.
Qed.

Lemma clear_code_then_submit_witness :
  let w := run [SelectLanguage "Python"; TypeCode "cursor.execute(q % name)"]
               initialWorld in
  code (form (page (step ClickClearCode w))) = "".
Proof.
  cbv zeta.
  refine (proj1 (proj2 (proj2 (proj2 (proj2
            (clear_code_then_submit Returns _))))) _).
  reflexivity.
Defined.

Lemma reader_onload_last (file : File) (w : World) (pending : list File) :
  reading w = pending ++ [file] ->
  form (page (reader_onload (length pending) w))
  = {| language := language (form (page w)); code := file_text file |}
  /\ reading (reader_onload (length pending) w) = pending
  /\ scanResult (page (reader_onload (length pending) w)) = scanResult (page w)
  /\ isLoading (page (reader_onload (length pending) w)) = isLoading (page w)
  /\ gateway (reader_onload (length pending) w) = gateway w
  /\ toasts (reader_onload (length pending) w) = toasts w.
Proof.
  intros H. unfold reader_onload. rewrite H, list_lookup_middle by reflexivity.
  cbn.
  replace (delete (length pending) (pending ++ [file])) with pending;
    [repeat split|].
  clear. induction pending as [|x l IH]; cbn; [reflexivity | now f_equal].
Qed.

(** X7. Upload File: choosing files changes nothing on the page yet and
    starts one reader, on the first file only; when that reader has
    loaded, the code field is exactly the file's text, whatever it held
    before, and the language, the result and the gateway log are
    untouched.  Nothing limits the text at that point: a text of more
    than 8000 characters is put into the field and is rejected as too
    long only by the next submit. *)
Theorem upload_replaces_code (file : File) (rest : list File)
    (i : Invocation) (w : World) :
  let w1 := step (ChooseFiles (Some (file :: rest))) w in
  let w2 := step (FileLoaded (length (reading w))) w1 in
  page w1 = page w
  /\ gateway w1 = gateway w
  /\ reading w1 = reading w ++ [file]
  /\ form (page w2)
     = {| language := language (form (page w)); code := file_text file |}
  /\ reading w2 = reading w
  /\ scanResult (page w2) = scanResult (page w)
  /\ gateway w2 = gateway w
  /\ (isLoading (page w) = false ->
      8000 < JS.length (file_text file) ->
      err_code (formErrors (page (step (SubmitScan i) w2)))
        = Some msg_code_too_long
      /\ gateway (step (SubmitScan i) w2) = gateway w).
Proof.
  cbv zeta. cbn [step].
  set (w1 := handleFileChange (Some (file :: rest)) w).
  assert (H1 : reading w1 = reading w ++ [file]) by reflexivity.
  destruct (reader_onload_last file w1 (reading w) H1)
    as (Hf & Hr & Hs & Hl & Hg & Ht).
  do 7 (split; [first [reflexivity | assumption]|]).
  intros Hload Hlen. rewrite Hl.
  change (isLoading (page w1)) with (isLoading (page w)). rewrite Hload.
  rewrite handleSubmit_scan_errors, handleSubmit_scan_gateway,
    formSchema_cases, Hf, Hg. cbn.
  destruct (JS.length (language (form (page w))) <? 1);
    destruct (Z.ltb_spec (JS.length (file_text file)) 20);
    destruct (Z.gtb_spec (JS.length (file_text file)) 8000);
    try lia; split; reflexivity.
Qed.

Lemma upload_replaces_code_witness :
  let big := {| file_name := "big.sql";
                file_text := string_of_list_ascii
                               (repeat "x"%char (Z.to_nat 8001)) |} in
  let w := run [SelectLanguage "SQL"; TypeCode "select 1"] initialWorld in
  let w2 := run [ChooseFiles (Some [big]); FileLoaded 0] w in
  err_code (formErrors (page (step (SubmitScan Returns) w2)))
    = Some msg_code_too_long
  /\ gateway (step (SubmitScan Returns) w2) = gateway w.
Proof.
  intros big w w2.
  refine (proj2 (proj2 (proj2 (proj2 (proj2 (proj2 (proj2
            (upload_replaces_code big [] Returns w))))))) _ _).
  - reflexivity.
  - vm_compute. reflexivity.
Defined.

(** X8. Each chosen file gets a reader of its own, and every reader that
    loads writes the code field: with two files chosen one after the
    other, the field ends up with the text of the file whose reader
    loaded last, which need not be the file chosen last. *)
Theorem last_loaded_file_wins (a b : File) (w : World) :
  let n := length (reading w) in
  let chosen := run [ChooseFiles (Some [a]); ChooseFiles (Some [b])] w in
  code (form (page (run [FileLoaded n; FileLoaded n] chosen))) = file_text b
  /\ code (form (page (run [FileLoaded (S n); FileLoaded n] chosen)))
     = file_text a.
Proof.
  cbv zeta. unfold run. cbn [fold_left step].
  set (c := handleFileChange (Some [b]) (handleFileChange (Some [a]) w)).
  assert (Hc : reading c = (reading w ++ [a]) ++ [b]) by reflexivity.
  split.
  - (* a's reader loads first, then b's *)
    assert (Ha : reading (reader_onload (length (reading w)) c)
                 = reading w ++ [b]).
    { assert (Hc' : reading c = reading w ++ [a; b])
        by (rewrite Hc, <- app_assoc; reflexivity).
      unfold reader_onload.
      rewrite Hc', list_lookup_middle by reflexivity.
      cbn.
      clear. induction (reading w) as [|x l IH]; cbn;
        [reflexivity | now f_equal]. }
    destruct (reader_onload_last b _ (reading w) Ha) as (-> & _).
    reflexivity.
  - (* b's reader loads first, then a's *)
    replace (S (length (reading w))) with (length (reading w ++ [a]))
      by (rewrite length_app; cbn; lia).
    destruct (reader_onload_last b c (reading w ++ [a]) Hc) as (_ & Hr & _).
    destruct (reader_onload_last a _ (reading w) Hr) as (-> & _).
    reflexivity.
Qed.

(** *** Skeletons and results *)

Lemma Forall_reconcile (P : RemediationState -> Prop) (n : nat)
    (l : list RemediationState) :
  P initialRemediation -> Forall P l -> Forall P (reconcile n l).
Proof.
  intros H0 Hl. unfold reconcile. apply Forall_app. split.
  - now apply Forall_take.
  - now apply Forall_replicate.
Qed.

Lemma alter_alter {A} (f g : A -> A) (k : nat) (l : list A) :
  alter g k (alter f k l) = alter (fun x => g (f x)) k l.
Proof.
  revert k; induction l as [|x l IH]; intros [|k]; cbn; try reflexivity.
  f_equal. apply IH.
Qed.

Lemma step_skeleton (e : Event) (w : World) :
  skeleton_excludes_result w -> skeleton_excludes_result (step e w).
Proof.
  unfold skeleton_excludes_result. intros (Hs & Hr & Hb).
  assert (H0 : quiet_while_loading initialRemediation) by (intros H; discriminate).
  by_cases e; (split; [|split]); try assumption; try discriminate;
    try reflexivity; try (intros; auto; fail); try (intros; congruence);
    rewrite ?alter_alter;
    repeat first
      [ assumption
      | apply Forall_reconcile; [exact H0|]
      | apply Forall_alter;
        [|intros ? ? ?; unfold quiet_while_loading; cbn;
          first [discriminate | congruence | tauto]] ].
Qed.

(** X9. In every world the page can reach, no component shows its skeleton
    together with its result: while the scan is loading there is no
    result and no panel, a section that is loading has no suggestion,
    and the best-practices section that is loading has no text. *)
Theorem skeleton_never_with_result (w : World) :
  reachable w ->
  (isLoading (page w) = true ->
   scanResult (page w) = None /\ render_panels w = []
   /\ sections (page w) = [] /\ render_loading w = Some LoadingState)
  /\ (forall k s, sections (page w) !! k = Some s ->
        fix_skeleton (render_section s) = true ->
        fix_block (render_section s) = None)
  /\ (bpv_skeleton (render_best (best w)) = true ->
      bpv_html (render_best (best w)) = None).
Proof.
  intros Hw. pose proof (reachable_consistent w Hw) as Hc.
  assert (H : skeleton_excludes_result w).
  { destruct Hw as [es ->].
    induction es as [|e es IH] using rev_ind.
    - repeat split; try discriminate. constructor.
    - rewrite run_app. apply step_skeleton, IH.
      apply reachable_consistent. now exists es. }
  destruct H as (Hs & Hr & Hb). split; [|split].
  - intros Hl. specialize (Hs Hl). unfold consistent in Hc.
    rewrite Hs in Hc. unfold render_panels, render_loading.
    rewrite Hs, Hl. repeat split.
    now apply nil_length_inv.
  - intros k s Hk Hl. cbn in *.
    rewrite Forall_lookup in Hr. now rewrite (Hr k s Hk Hl).
  - cbn. intros Hl. now rewrite (Hb Hl).
Qed.

Lemma skeleton_never_with_result_witness :
  let v := {| description := "SQL injection"; severity := "High";
              location := "line 3"; recommendation := "Bind parameters";
              references := None |} in
  let w := run [SelectLanguage "Python"; TypeCode "cursor.execute(q % name)";
                SubmitScan Returns;
                ScanSettled (Fulfilled {| vulnerabilities := [v] |});
                ClickSuggestFix 0 Returns;
                RemediationSettled 0 (Fulfilled "use placeholders");
                SubmitScan Returns] initialWorld in
  scanResult (page w) = None /\ render_panels w = []
  /\ sections (page w) = [] /\ render_loading w = Some LoadingState.
Proof.
  intros v w.
  refine (proj1 (skeleton_never_with_result w _) _).
  - eexists. reflexivity.
  - reflexivity.
Defined.

(** *** Failures are logged and notified *)

Lemma step_failures (e : Event) (w : World) :
  failures_accounted w -> failures_accounted (step e w).
Proof.
  unfold failures_accounted. intros [Hn Hall].
  by_cases e; (split; [|try assumption]);
    rewrite ?List.filter_app, ?length_app; cbn; try lia; try assumption;
    apply Forall_app; (split; [assumption|]);
    repeat constructor.
Qed.

(** X10. In every world the page can reach, the destructive toasts are as
    many as the errors written to the console: every catch block logs
    once and notifies once, and nothing else does either.  Every toast
    is one of the four the page defines. *)
Theorem failures_logged_and_notified (w : World) :
  reachable w ->
  console w = length (List.filter is_destructive (toasts w))
  /\ Forall (fun t => t ∈ page_toasts) (toasts w).
Proof.
  intros [es ->]. induction es as [|e es IH] using rev_ind.
  - split; [reflexivity | constructor].
  - rewrite run_app. apply step_failures, IH.
Qed.

Lemma failures_logged_and_notified_witness :
  let w := run [SelectLanguage "Python"; TypeCode "cursor.execute(q % name)";
                SubmitScan Returns; ScanSettled Rejected;
                SubmitScan Throws;
                SubmitScan Returns;
                ScanSettled (Fulfilled {| vulnerabilities := [] |});
                SelectBestPracticesLanguage "Go"; SubmitBestPractices Returns;
                BestPracticesSettled Rejected] initialWorld in
  console w = 3%nat
  /\ toasts w = [toast_scan_failed; toast_scan_failed;
                 toast_no_vulnerabilities; toast_best_practices_failed].
Proof.
  intros w. split; [|reflexivity].
  rewrite (proj1 (failures_logged_and_notified w
                    ltac:(eexists; reflexivity))).
  reflexivity.
Defined.

(** *** A new result and its sections *)

Lemma reconcile_nil (n : nat) :
  reconcile n [] = replicate n initialRemediation.
Proof. unfold reconcile. now rewrite take_nil, Nat.sub_0_r. Qed.

Lemma submit_unmounts (w : World) :
  isLoading (page w) = false ->
  formSchema (form (page w)) = [] ->
  scanResult (page (step (SubmitScan Returns) w)) = None
  /\ sections (page (step (SubmitScan Returns) w)) = [].
Proof.
  intros Hl Hv. cbn [step]. rewrite Hl, handleSubmit_scan_valid by exact Hv.
  split; reflexivity.
Qed.

Lemma reconcile_replicate (n m : nat) :
  reconcile n (replicate m initialRemediation)
  = replicate n initialRemediation.
Proof.
  unfold reconcile.
  rewrite take_replicate, length_replicate, <- replicate_add.
  f_equal. lia.
Qed.

Lemma settled_mounts_fresh (r : ScanOutput) (w : World) :
  sections (page w) = [] ->
  sections (page (step (ScanSettled (Fulfilled r)) w))
  = replicate (length (vulnerabilities r)) initialRemediation.
Proof.
  intros Hs. cbn [step]. unfold onSubmit_settled, onSubmit_then.
  destruct (Z.of_nat (length (vulnerabilities r)) =? 0); cbn; unfold skip;
    rewrite Hs, !reconcile_nil, ?reconcile_replicate, panelCount_length;
    reflexivity.
Qed.

(** X12. A new scan starts every finding afresh: when an accepted submit is
    followed, after any events other than scan events, by its fulfilled
    result, each finding of the new result has a section in its initial
    state, not loading and without suggestion, whatever the sections of
    the previous result held. *)
Theorem new_result_mounts_fresh_sections
    (r : ScanOutput) (between : list Event) (w : World) :
  isLoading (page w) = false ->
  formSchema (form (page w)) = [] ->
  Forall (fun e => scan_event e = false) between ->
  sections
    (page (run ([SubmitScan Returns] ++ between
                ++ [ScanSettled (Fulfilled r)]) w))
  = replicate (length (vulnerabilities r)) initialRemediation.
Proof.
  intros Hl Hv Hb. rewrite !run_app.
  change (run [SubmitScan Returns] w) with (step (SubmitScan Returns) w).
  destruct (submit_unmounts w Hl Hv) as [Hr Hs].
  set (w1 := step (SubmitScan Returns) w) in *.
  assert (Hc1 : consistent w1) by (unfold consistent; now rewrite Hr, Hs).
  pose proof (consistent_run between w1 Hc1) as Hc2.
  destruct (run_scanResult between w1 Hb) as [Hr2 _].
  unfold consistent in Hc2. rewrite Hr2, Hr in Hc2.
  apply nil_length_inv in Hc2.
  now apply settled_mounts_fresh.
Qed.

Lemma new_result_mounts_fresh_sections_witness :
  let v := {| description := "SQL injection"; severity := "High";
              location := "line 3"; recommendation := "Bind parameters";
              references := None |} in
  let w := run [SelectLanguage "Python"; TypeCode "cursor.execute(q % name)";
                SubmitScan Returns;
                ScanSettled (Fulfilled {| vulnerabilities := [v] |});
                ClickSuggestFix 0 Returns;
                RemediationSettled 0 (Fulfilled "use placeholders")]
               initialWorld in
  sections (page w) = [shown (Fulfilled "use placeholders")]
  /\ sections
       (page (run ([SubmitScan Returns]
                   ++ [RemediationSettled 0 Rejected; Rerender]
                   ++ [ScanSettled (Fulfilled {| vulnerabilities := [v; v] |})])
                  w))
     = [initialRemediation; initialRemediation].
Proof.
  intros v w. split; [reflexivity|].
  refine (new_result_mounts_fresh_sections
            {| vulnerabilities := [v; v] |}
            [RemediationSettled 0 Rejected; Rerender] w _ _ _).
  - reflexivity.
  - reflexivity.
  - repeat constructor.
Defined.

(** *** Replies and what is shown of them *)

(** X13. A fulfilled remediation or best-practices request shows its text
    unless the text is empty: an empty reply leaves the section without
    block, with its skeleton gone and its button enabled again, and the
    settlement publishes no toast, as if nothing had been asked.  For a
    finding this is its own request: the click on its idle section,
    then any events that are neither scan events nor events of that
    section, then the settlement. *)
Theorem fulfilled_reply_shown_unless_empty (result : string) (w : World) :
  (forall k s between,
     consistent w ->
     sections (page w) !! k = Some s ->
     rem_isLoading s = false ->
     is_Some (finding w k) ->
     Forall (fun e => scan_event e = false /\ remediation_event k e = false)
            between ->
     let asked := run (ClickSuggestFix k Returns :: between) w in
     let w' := step (RemediationSettled k (Fulfilled result)) asked in
     exists s',
       sections (page w') !! k = Some s'
       /\ fix_block (render_section s')
          = (if truthy result then Some result else None)
       /\ fix_skeleton (render_section s') = false
       /\ fix_disabled (render_section s') = false
       /\ toasts w' = toasts asked)
  /\ (let w' := step (BestPracticesSettled (Fulfilled result)) w in
      bpv_html (render_best (best w'))
      = (if truthy result then Some result else None)
      /\ bpv_skeleton (render_best (best w')) = false
      /\ bpv_disabled (render_best (best w')) = false
      /\ toasts w' = toasts w).
Proof.
  split.
  - intros k s between Hc Hs Hl Hf Hb. cbv zeta. rewrite run_cons.
    pose proof (click_section k Returns s w Hc Hs Hl Hf) as Hk.
    pose proof (consistent_step (ClickSuggestFix k Returns) w Hc) as Hc1.
    set (w1 := step (ClickSuggestFix k Returns) w) in *.
    pose proof (consistent_run between w1 Hc1) as Hc2.
    rewrite settled_section by exact Hc2.
    rewrite run_section by assumption.
    rewrite Hk. eexists. split; [reflexivity|]. repeat split.
  - cbv zeta. repeat split.
Qed.

Lemma fulfilled_reply_shown_unless_empty_witness :
  let v := {| description := "SQL injection"; severity := "High";
              location := "line 3"; recommendation := "Bind parameters";
              references := None |} in
  let w := run [SelectLanguage "Python"; TypeCode "cursor.execute(q % name)";
                SubmitScan Returns;
                ScanSettled (Fulfilled {| vulnerabilities := [v; v] |})]
               initialWorld in
  let asked := run [ClickSuggestFix 0 Returns; ClickSuggestFix 1 Returns;
                    Rerender] w in
  let w' := step (RemediationSettled 0 (Fulfilled "")) asked in
  exists s',
    sections (page w') !! 0%nat = Some s'
    /\ fix_block (render_section s') = None
    /\ fix_skeleton (render_section s') = false
    /\ fix_disabled (render_section s') = false
    /\ toasts w' = toasts asked.
Proof.
  intros v w asked w'.
  refine (proj1 (fulfilled_reply_shown_unless_empty "" w) 0%nat
            initialRemediation [ClickSuggestFix 1 Returns; Rerender]
            _ _ _ _ _).
  - reflexivity.
  - reflexivity.
  - reflexivity.
  - eexists; reflexivity.
  - repeat constructor.
Defined.

(** *** The badge under more text *)

Lemma append_assoc (a b c : string) : (a +:+ b) +:+ c = a +:+ b +:+ c.
Proof.
  induction a as [|x a IH]; [reflexivity|].
  change (String x ((a +:+ b) +:+ c) = String x (a +:+ b +:+ c)).
  now f_equal.
Qed.

Lemma includes_extend (pre s suf kw : string) :
  JS.includes (JS.toLowerCase s) kw = true ->
  JS.includes (JS.toLowerCase (pre +:+ s +:+ suf)) kw = true.
Proof.
  rewrite !includes_spec. intros (p & q & H).
  exists (JS.toLowerCase pre +:+ p), (q +:+ JS.toLowerCase suf).
  now rewrite !toLowerCase_app, H, !append_assoc.
Qed.

(** X14. Text added before or after a severity never gives it a plainer
    badge: the badge of the longer string ranks at least as high, and a
    destructive badge stays destructive.  So any severity that mentions
    high or critical anywhere is shown as destructive. *)
Theorem badge_never_lowered_by_more_text (pre sev suf : string) :
  (rank (getBadgeVariant sev)
   <= rank (getBadgeVariant (pre +:+ sev +:+ suf)))%nat
  /\ (getBadgeVariant sev = destructive ->
      getBadgeVariant (pre +:+ sev +:+ suf) = destructive).
Proof.
  unfold getBadgeVariant.
  pose proof (includes_extend pre sev suf "high") as Hh.
  pose proof (includes_extend pre sev suf "critical") as Hc.
  pose proof (includes_extend pre sev suf "medium") as Hm.
  pose proof (includes_extend pre sev suf "low") as Hl.
  destruct (JS.includes (JS.toLowerCase sev) "high");
    destruct (JS.includes (JS.toLowerCase sev) "critical");
    destruct (JS.includes (JS.toLowerCase sev) "medium");
    destruct (JS.includes (JS.toLowerCase sev) "low");
    rewrite ?Hh, ?Hc, ?Hm, ?Hl by reflexivity; cbn [orb rank];
    try rewrite orb_true_r;
    (split; [|first [reflexivity | discriminate]]);
    destruct (JS.includes (JS.toLowerCase (pre +:+ sev +:+ suf)) "high");
    destruct (JS.includes (JS.toLowerCase (pre +:+ sev +:+ suf)) "critical");
    destruct (JS.includes (JS.toLowerCase (pre +:+ sev +:+ suf)) "medium");
    destruct (JS.includes (JS.toLowerCase (pre +:+ sev +:+ suf)) "low");
    cbn; lia.
Qed.

Lemma badge_never_lowered_by_more_text_witness :
  getBadgeVariant "Not High (informational)" = destructive.
Proof.
  exact (proj2 (badge_never_lowered_by_more_text "Not " "High"
                  " (informational)") eq_refl).
Defined.

(** *** The two fields of the scan form *)

(** X15. The resolver reports each field of the scan form on its own: the
    language error depends on the language alone and the code error on
    the code alone, both are reported together when both fields are
    wrong, the code is never reported both too short and too long, and
    the form is accepted exactly when neither field has an error. *)
Theorem field_errors_independent (values : FormValues) :
  let errors := zodResolver (formSchema values) in
  err_language errors
    = (if JS.length (language values) <? 1
       then Some msg_select_language else None)
  /\ err_code errors
    = (if JS.length (code values) <? 20 then Some msg_code_too_short
       else if JS.length (code values) >? 8000 then Some msg_code_too_long
       else None)
  /\ (formSchema values = [] <-> errors = noErrors)
  /\ (length (formSchema values) <= 2)%nat.
Proof.
  cbv zeta. rewrite formSchema_cases.
  destruct (JS.length (language values) <? 1);
    destruct (JS.length (code values) <? 20);
    destruct (JS.length (code values) >? 8000);
    cbn; repeat split; intros; try discriminate; try reflexivity; lia.
Qed.
